(** * vprof code heatmap: a shallow embedding of
      [vprof/frontend/code_heatmap.js] and its properties.

    The module renders, for every profiled file, one row per visible source
    line (coloured by the time spent on it) and one collapsed marker per
    skipped block, and binds hover handlers that show a tooltip with the
    line's time and execution count.

    JavaScript numbers are IEEE 754 doubles and are modelled by Rocq's
    primitive [float]; JavaScript objects used as dictionaries are modelled
    by [gmap]; the methods of [CodeHeatmap] thread the object and the page
    explicitly through a small state monad. *)

From Stdlib Require Import Floats.
From stdpp Require Import gmap strings list pretty.

Set Default Proof Using "Type".

(** ** JavaScript values *)

(** The values that flow through the module's statistics: a number, or
    [undefined] (which is what reading a missing property yields). *)
Inductive value : Type :=
  | Undefined
  | Number (x : float).

(** [ToBoolean]: [undefined], [+0], [-0] and [NaN] are falsy, every other
    number is truthy. *)
Definition ToBoolean (v : value) : bool :=
  match v with
  | Undefined => false
  | Number x => negb (PrimFloat.eqb x 0 || negb (PrimFloat.eqb x x))
  end.

(** [ToNumber]: [undefined] converts to [NaN]. *)
Definition ToNumber (v : value) : float :=
  match v with
  | Undefined => nan
  | Number x => x
  end.

(** Property read [obj[key]] on an object used as a dictionary. *)
Definition jsget `{Countable K} (obj : gmap K float) (key : K) : value :=
  match obj !! key with
  | Some x => Number x
  | None => Undefined
  end.

(** Property read on a dictionary whose properties hold JavaScript values
    (a property may be present and hold [undefined]). *)
Definition jsread `{Countable K} (obj : gmap K value) (key : K) : value :=
  default Undefined (obj !! key).

(** ** The report *)

(** One element of [stats.srcCode]: the arrays [['line', lineNumber,
    codeLine]] and [['skip', count]]; an array with any other tag is
    accepted by the loop and ignored. Line numbers and skip counts are
    integers. *)
Inductive SourceEntry : Type :=
  | Line (lineNumber : Z) (codeLine : string)
  | Skip (count : Z)
  | OtherTag (tag : string).

Record Stats : Type := {
  name : string;
  srcCode : list SourceEntry;
  heatmap : gmap Z float;
  executionCount : gmap Z float;
}.

Record Data : Type := {
  runTime : float;
  heatmaps : list Stats;
}.

(** The object returned by [renderCode_]. *)
Module Rendered.
Record t : Type := {
  srcCode : string;
  timeMap : gmap nat value;
  countMap : gmap nat value;
}.
End Rendered.

(** ** The page *)

(** An element of the page, as far as this module touches it: its [class]
    attribute, its inline style properties (in the order they were first
    set) and its inner markup. *)
Record Element : Type := {
  className : string;
  style : list (string * string);
  innerHTML : string;
}.

(** The part of the page the module builds and later mutates: for each
    file, the elements inside its [heatmap-src-code] container, and the
    single tooltip. The static chrome (help banner, module list, file
    headers) is never read or written after [render] and is left out. *)
Record Page : Type := {
  fileContainers : list (list Element);
  tooltip : Element;
}.

(** [d3select.event], as far as the handlers read it. *)
Record Event : Type := {
  pageX : Z;
  pageY : Z;
}.

(** ** The [CodeHeatmap] object *)

Record CodeHeatmap : Type := {
  MIN_RUN_TIME : float;
  MAX_RUN_TIME : float;
  MIN_RUN_COLOR : string;
  MAX_RUN_COLOR : string;
  HELP_MESSAGE : string;
  data_ : Data;
  heatmapScale_ : value → string;
}.

(** What a method can read and write: the object itself, the page
    reachable from [parent_], and the global [d3select.event]. *)
Record World : Type := {
  self : CodeHeatmap;
  page : Page;
  d3select_event : Event;
}.

(** ** A state monad for the methods *)

Definition M (A : Type) : Type := World → A * World.

Global Instance M_ret : MRet M := λ A a w, (a, w).
Global Instance M_bind : MBind M := λ A B f m w, let (a, w') := m w in f a w'.

Definition gets {A} (f : World → A) : M A := λ w, (f w, w).
Definition setPage (f : Page → Page) : M unit :=
  λ w, (tt, {| self := self w; page := f (page w);
               d3select_event := d3select_event w |}).

(** A [for] loop over an array, threading the loop variables. *)
Fixpoint forEach {A B} (body : A → B → M A) (acc : A) (l : list B) : M A :=
  match l with
  | [] => mret acc
  | b :: l => acc' ← body acc b; forEach body acc' l
  end.

(** [Array.prototype.join('')]. *)
Definition join (pieces : list string) : string :=
  foldr String.app "" pieces.

(** Printing an integer-valued number (a line number, a skip count, a
    pointer coordinate): decimal digits, with a leading minus sign for
    negative ones, which is how JavaScript prints every integer of
    magnitude up to 2^53 (the integers a number holds exactly). *)
Definition Int_toString (n : Z) : string := pretty n.

(** ** External collaborators

    [hljs.highlight(language, code).value], the scale built by
    [d3scale.scaleLog().domain(..).range(..)], and the conversion of a
    number to a string done by [+] on a string (the shortest decimal
    that reads back as the same double). None of them is part of this
    module; it only calls them. *)
Class Collaborators : Type := {
  hljs_highlight : string → string → string;
  d3_scaleLog : float * float → string * string → value → string;
  Number_toString : float → string;
}.

Section CodeHeatmap.

Context `{Collaborators}.

(** [ToString] on a value, as done by string concatenation. *)
Definition ToString (v : value) : string :=
  match v with
  | Undefined => "undefined"
  | Number x => Number_toString x
  end.

(** The constructor. *)
Set Warnings "-inexact-float".
Definition new_CodeHeatmap (data : Data) : CodeHeatmap :=
  let MIN_RUN_TIME := 0.000001%float in
  let MAX_RUN_TIME := runTime data in
  let MIN_RUN_COLOR := "#ebfaeb" in
  let MAX_RUN_COLOR := "#47d147" in
  {| MIN_RUN_TIME := MIN_RUN_TIME;
     MAX_RUN_TIME := MAX_RUN_TIME;
     MIN_RUN_COLOR := MIN_RUN_COLOR;
     MAX_RUN_COLOR := MAX_RUN_COLOR;
     HELP_MESSAGE :=
       "<p>&#8226 Hover over line to see line execution count.</p>";
     data_ := data;
     heatmapScale_ :=
       d3_scaleLog (MIN_RUN_TIME, MAX_RUN_TIME)
                   (MIN_RUN_COLOR, MAX_RUN_COLOR) |}.
Set Warnings "inexact-float".

(** *** [formatSrcLine_] *)

Definition formatSrcLine_ (lineNumber : Z) (codeLine : string)
    (runCount : value) : M string :=
  this ← gets self;
  let highlightedLine := hljs_highlight "python" codeLine in
  let backgroundColor :=
    if ToBoolean runCount then heatmapScale_ this runCount else "" in
  mret ("<div class='heatmap-src-line-normal' style='background-color: " +:+
          backgroundColor +:+ "'>" +:+
          "<div class='heatmap-src-line-number'>" +:+
            Int_toString lineNumber +:+ "</div>" +:+
          "<div class='heatmap-src-line-code'>" +:+
            highlightedLine +:+ "</div>" +:+
        "</div>").

(** *** [renderCode_] *)

(** The loop variables [outputCode], [timeMap], [srcIndex], [countMap]. *)
Record LoopVars : Type := {
  outputCode : list string;
  timeMap : gmap nat value;
  srcIndex : nat;
  countMap : gmap nat value;
}.

Definition skipMarker (count : Z) : string :=
  "<div class='heatmap-skip-line'>" +:+ Int_toString count +:+
  " lines skipped</div>".

(** One iteration of the loop of [renderCode_]. *)
Definition renderCode_body (stats : Stats) (vars : LoopVars)
    (entry : SourceEntry) : M LoopVars :=
  match entry with
  | Line lineNumber codeLine =>
      row ← formatSrcLine_ lineNumber codeLine
              (jsget (heatmap stats) lineNumber);
      mret {| outputCode := outputCode vars ++ [row];
              timeMap := <[srcIndex vars := jsget (heatmap stats) lineNumber]>
                           (timeMap vars);
              countMap := <[srcIndex vars :=
                              jsget (executionCount stats) lineNumber]>
                            (countMap vars);
              srcIndex := S (srcIndex vars) |}
  | Skip count =>
      mret {| outputCode := outputCode vars ++ [skipMarker count];
              timeMap := timeMap vars;
              countMap := countMap vars;
              srcIndex := srcIndex vars |}
  | OtherTag _ => mret vars
  end.

Definition renderCode_init : LoopVars :=
  {| outputCode := []; timeMap := ∅; srcIndex := 0; countMap := ∅ |}.

Definition renderCode_loop (stats : Stats) (entries : list SourceEntry)
    : M LoopVars :=
  forEach (renderCode_body stats) renderCode_init entries.

Definition renderCode_ (stats : Stats) : M Rendered.t :=
  vars ← renderCode_loop stats (srcCode stats);
  mret {| Rendered.srcCode := join (outputCode vars);
          Rendered.timeMap := timeMap vars;
          Rendered.countMap := countMap vars |}.

(** *** The elements of the page *)

(** A reference to an element of a file's code body: the index of the
    file and the index of the element inside its container. *)
Definition ElementRef : Type := nat * nat.

(** [selection.attr('class', cls)], [selection.html(markup)] and
    [selection.style(property, v)] on one element. The [style] field is
    the record of the values passed to [selection.style], by property; it
    is not the style the browser computes (the CSS engine may drop a value
    it does not accept, such as a length without a unit). Where a worked
    page below shows this field, it shows the recorded arguments. *)
Definition attr_class (cls : string) (e : Element) : Element :=
  {| className := cls; style := style e; innerHTML := innerHTML e |}.

Definition html (markup : string) (e : Element) : Element :=
  {| className := className e; style := style e; innerHTML := markup |}.

Fixpoint setProperty (property v : string) (decls : list (string * string))
    : list (string * string) :=
  match decls with
  | [] => [(property, v)]
  | (p, v') :: decls =>
      if String.eqb p property then (p, v) :: decls
      else (p, v') :: setProperty property v decls
  end.

Definition style_ (property v : string) (e : Element) : Element :=
  {| className := className e;
     style := setProperty property v (style e);
     innerHTML := innerHTML e |}.

Definition onElement (ref : ElementRef) (f : Element → Element) : M unit :=
  setPage (λ p, {| fileContainers :=
                     alter (alter f ref.2) ref.1 (fileContainers p);
                   tooltip := tooltip p |}).

Definition onTooltip (f : Element → Element) : M unit :=
  setPage (λ p, {| fileContainers := fileContainers p;
                   tooltip := f (tooltip p) |}).

Definition getElement (p : Page) (ref : ElementRef) : option Element :=
  fileContainers p !! ref.1 ≫= (.!! ref.2).

(** *** [showTooltip_] and [hideTooltip_]

    The [tooltip] argument of the source is always the one tooltip of the
    page, so the model does not pass it. *)

Definition showTooltip_ (element : ElementRef)
    (lineRuntime lineRuncount : value) (totalTime : float) : M unit :=
  onElement element (attr_class "heatmap-src-line-highlight");;
  ev ← gets d3select_event;
  onTooltip (attr_class "content-tooltip content-tooltip-visible");;
  onTooltip (html
    ("<p><b>Time spent: </b>" +:+ ToString lineRuntime +:+ " s</p>" +:+
     "<p><b>Total running time: </b>" +:+ Number_toString totalTime +:+
       " s</p>" +:+
     "<p><b>Percentage: </b>" +:+
       Number_toString (100 * (ToNumber lineRuntime / totalTime))%float +:+
       "%</p>" +:+
     "<p><b>Run count: </b>" +:+ ToString lineRuncount +:+ "</p>"));;
  onTooltip (style_ "left" (Int_toString (pageX ev)));;
  onTooltip (style_ "top" (Int_toString (pageY ev))).

Definition hideTooltip_ (element : ElementRef) : M unit :=
  onElement element (attr_class "heatmap-src-line-normal");;
  onTooltip (attr_class "content-tooltip content-tooltip-invisible").

(** *** [render]: the code bodies, the tooltip and the hover handlers *)

(** The handler bound to ['mouseover'] on the [j]-th selected row of a
    file, [this] being that row and [rendered] being
    [renderedSources[i]]. *)
Definition mouseover_handler (rendered : Rendered.t) (j : nat)
    (this : ElementRef) : M unit :=
  if ToBoolean (jsread (Rendered.countMap rendered) j) then
    s ← gets self;
    showTooltip_ this (jsread (Rendered.timeMap rendered) j)
      (jsread (Rendered.countMap rendered) j) (runTime (data_ s))
  else mret ().

(** The handler bound to ['mouseout']. *)
Definition mouseout_handler (this : ElementRef) : M unit :=
  hideTooltip_ this.

(** The listeners [selection.on] leaves on one element. *)
Record Listener : Type := {
  target : ElementRef;
  on_mouseover : M unit;
  on_mouseout : M unit;
}.

(** The element a row of markup from [formatSrcLine_] denotes, and the
    element a skip marker denotes. *)
Definition srcLineElement (this : CodeHeatmap) (lineNumber : Z)
    (codeLine : string) (runCount : value) : Element :=
  {| className := "heatmap-src-line-normal";
     style := [("background-color",
                if ToBoolean runCount then heatmapScale_ this runCount
                else "")];
     innerHTML :=
       "<div class='heatmap-src-line-number'>" +:+
         Int_toString lineNumber +:+ "</div>" +:+
       "<div class='heatmap-src-line-code'>" +:+
         hljs_highlight "python" codeLine +:+ "</div>" |}.

Definition skipElement (count : Z) : Element :=
  {| className := "heatmap-skip-line";
     style := [];
     innerHTML := Int_toString count +:+ " lines skipped" |}.

(** The elements denoted by the markup [renderCode_] produces for a
    list of entries, in document order (see [renderCode__markup]). *)
Definition entryElements (this : CodeHeatmap) (stats : Stats)
    (entry : SourceEntry) : list Element :=
  match entry with
  | Line lineNumber codeLine =>
      [srcLineElement this lineNumber codeLine
         (jsget (heatmap stats) lineNumber)]
  | Skip count => [skipElement count]
  | OtherTag _ => []
  end.

Definition rowElements (this : CodeHeatmap) (stats : Stats)
    (entries : list SourceEntry) : list Element :=
  entries ≫= entryElements this stats.

(** Serialisation of an element as a [div]. *)
Fixpoint cssText (decls : list (string * string)) : string :=
  match decls with
  | [] => ""
  | [(p, v)] => p +:+ ": " +:+ v
  | (p, v) :: decls => p +:+ ": " +:+ v +:+ "; " +:+ cssText decls
  end.

Definition outerHTML (e : Element) : string :=
  "<div class='" +:+ className e +:+ "'" +:+
  match style e with
  | [] => ""
  | decls => " style='" +:+ cssText decls +:+ "'"
  end +:+ ">" +:+ innerHTML e +:+ "</div>".

(** [selection.selectAll('.' + cls)] over the elements of a container:
    the indices of the selected elements, in document order. *)
Fixpoint selectAllFrom (cls : string) (k : nat) (els : list Element)
    : list nat :=
  match els with
  | [] => []
  | e :: els =>
      (if decide (className e = cls) then [k] else []) ++
      selectAllFrom cls (S k) els
  end.

Definition selectAll (cls : string) (els : list Element) : list nat :=
  selectAllFrom cls 0 els.

(** The listeners bound on the rows of file [i]. *)
Definition bindFile (i : nat) (rendered : Rendered.t)
    (container : list Element) : list Listener :=
  imap (λ j k, {| target := (i, k);
                  on_mouseover := mouseover_handler rendered j (i, k);
                  on_mouseout := mouseout_handler (i, k) |})
       (selectAll "heatmap-src-line-normal" container).

(** The page [render] builds: the children of each code container are the
    elements its markup denotes, and the tooltip starts invisible. *)
Definition renderedPage (this : CodeHeatmap) : Page :=
  {| fileContainers :=
       (λ stats, rowElements this stats (srcCode stats)) <$>
         heatmaps (data_ this);
     tooltip := {| className := "content-tooltip content-tooltip-invisible";
                   style := []; innerHTML := "" |} |}.

(** [render]: all files are rendered first, then the markup is inserted
    and the tooltip created, then the handlers are bound. The layout is
    appended afresh, so the modelled part of the page does not depend on
    what the parent held before. *)
Definition render : M (list Listener) :=
  this ← gets self;
  renderedSources ←
    forEach (λ (acc : list Rendered.t) stats,
               r ← renderCode_ stats; mret (acc ++ [r]))
            [] (heatmaps (data_ this));
  setPage (λ _, renderedPage this);;
  p ← gets page;
  mret (mjoin (imap (λ i rendered,
                 bindFile i rendered (default [] (fileContainers p !! i)))
               renderedSources)).

(** [renderCodeHeatmap(data, parent)]. *)
Definition renderCodeHeatmap (data : Data) (parent : Page) (ev : Event)
    : list Listener * World :=
  render {| self := new_CodeHeatmap data;
            page := parent;
            d3select_event := ev |}.

(** *** Vocabulary of the statements *)

(** The ['line'] entries of a file, in order. *)
Definition lineEntries (entries : list SourceEntry) : list (Z * string) :=
  omap (λ entry, match entry with
                 | Line lineNumber codeLine => Some (lineNumber, codeLine)
                 | _ => None
                 end) entries.

(** The time and the count [renderCode_] reads for a ['line'] entry. *)
Definition timeOf (stats : Stats) (l : Z * string) : value :=
  jsget (heatmap stats) l.1.

Definition countOf (stats : Stats) (l : Z * string) : value :=
  jsget (executionCount stats) l.1.

(** The position at which the loop of [renderCode_] holds [srcIndex] when
    it reaches the entry of index [i]. *)
Definition positionAt (stats : Stats) (i : nat) (w : World) : nat :=
  srcIndex (renderCode_loop stats (take i (srcCode stats)) w).1.

(** A time that is absent or zero. *)
Definition noTime (runCount : value) : Prop :=
  runCount = Undefined ∨
  ∃ x, runCount = Number x ∧ PrimFloat.eqb x 0 = true.

(** The markup of a row, given its background colour. *)
Definition rowMarkup (backgroundColor : string) (lineNumber : Z)
    (codeLine : string) : string :=
  "<div class='heatmap-src-line-normal' style='background-color: " +:+
    backgroundColor +:+ "'>" +:+
    "<div class='heatmap-src-line-number'>" +:+
      Int_toString lineNumber +:+ "</div>" +:+
    "<div class='heatmap-src-line-code'>" +:+
      hljs_highlight "python" codeLine +:+ "</div>" +:+
  "</div>".

(** *** Vocabulary of the further properties *)

(** A file with the same name and statistics and other source entries. *)
Definition withSrcCode (stats : Stats) (entries : list SourceEntry) : Stats :=
  {| name := name stats;
     srcCode := entries;
     heatmap := heatmap stats;
     executionCount := executionCount stats |}.

(** An entry whose tag is one of the two the loop of [renderCode_] tests
    for. *)
Definition knownTag (entry : SourceEntry) : Prop :=
  match entry with
  | OtherTag _ => False
  | _ => True
  end.

Global Instance knownTag_dec entry : Decision (knownTag entry).
Proof. destruct entry; apply _. Defined.

(** The listener [render] binds on the row of the entry of index [i] of
    the file of index [fileIndex]. *)
Definition rowListener (w : World) (fileIndex : nat) (stats : Stats)
    (i : nat) : Listener :=
  let this :=
    (fileIndex,
     length (rowElements (self w) stats (take i (srcCode stats)))) in
  {| target := this;
     on_mouseover :=
       mouseover_handler (renderCode_ stats w).1 (positionAt stats i w) this;
     on_mouseout := mouseout_handler this |}.

(** *** Hover events

    The two events the module listens to. Before it calls a listener, d3
    stores the event in [d3select.event]. *)
Inductive EventType : Type := Mouseover | Mouseout.

Record HoverEvent : Type := {
  eventType : EventType;
  listener : Listener;
  event : Event;
}.

Definition setEvent (ev : Event) : M unit :=
  λ w, (tt, {| self := self w; page := page w; d3select_event := ev |}).

Definition dispatch (e : HoverEvent) : M unit :=
  setEvent (event e);;
  match eventType e with
  | Mouseover => on_mouseover (listener e)
  | Mouseout => on_mouseout (listener e)
  end.

Definition dispatchAll (events : list HoverEvent) : M unit :=
  forEach (λ _ e, dispatch e) tt events.

(** A row whose hover-enter does something: the row of a ['line'] entry
    of the report whose execution count is truthy. *)
Definition liveRow (w : World) (ref : ElementRef) : Prop :=
  ∃ fileIndex stats i lineNumber codeLine,
    heatmaps (data_ (self w)) !! fileIndex = Some stats ∧
    srcCode stats !! i = Some (Line lineNumber codeLine) ∧
    ToBoolean (jsget (executionCount stats) lineNumber) = true ∧
    ref = (fileIndex,
           length (rowElements (self w) stats (take i (srcCode stats)))).

(** What every sequence of hover events keeps of the world [render w0]
    left: the object; every element that is not a live row; of a live row
    everything but the class, which is the normal or the highlighted one;
    and a tooltip class that is one of the two the module uses. *)
Definition hoverInvariant (w0 w : World) : Prop :=
  self w = self w0 ∧
  (∀ ref, ¬ liveRow w0 ref →
     getElement (page w) ref = getElement (renderedPage (self w0)) ref) ∧
  (∀ ref, liveRow w0 ref →
     getElement (page w) ref = getElement (renderedPage (self w0)) ref ∨
     getElement (page w) ref =
       attr_class "heatmap-src-line-highlight" <$>
         getElement (renderedPage (self w0)) ref) ∧
  (className (tooltip (page w)) = "content-tooltip content-tooltip-invisible" ∨
   className (tooltip (page w)) = "content-tooltip content-tooltip-visible").

(** A listener that belongs to the line its row shows in the page
    [render w0] built. *)
Definition showsOwnLine (w0 : World) (l : Listener) : Prop :=
  ∃ stats lineNumber codeLine,
    stats ∈ heatmaps (data_ (self w0)) ∧
    Line lineNumber codeLine ∈ srcCode stats ∧
    getElement (page (render w0).2) (target l) =
      Some (srcLineElement (self w0) lineNumber codeLine
              (jsget (heatmap stats) lineNumber)) ∧
    on_mouseover l =
      (if ToBoolean (jsget (executionCount stats) lineNumber) then
         s ← gets self;
         showTooltip_ (target l) (jsget (heatmap stats) lineNumber)
           (jsget (executionCount stats) lineNumber) (runTime (data_ s))
       else mret ()) ∧
    on_mouseout l = hideTooltip_ (target l).

(** *** The layout [render] appends to its parent

    The static part of [render] and [renderHelp_]: a tree of elements
    built with [selection.append], [selection.attr], [selection.html] and
    two data joins. *)

(** An element of the layout: its tag, its attributes in the order they
    were set, the markup put into it by [selection.html], and the children
    appended to it. *)
Local Unset Elimination Schemes.
Inductive Node : Type :=
  mkNode (nodeName : string) (attributes : list (string * string))
         (markup : string) (childNodes : list Node).
Local Set Elimination Schemes.

Definition nodeName (n : Node) : string :=
  match n with mkNode tag _ _ _ => tag end.
Definition attributes (n : Node) : list (string * string) :=
  match n with mkNode _ attrs _ _ => attrs end.
Definition markup (n : Node) : string :=
  match n with mkNode _ _ m _ => m end.
Definition childNodes (n : Node) : list Node :=
  match n with mkNode _ _ _ children => children end.

(** [document.createElement(tag)], and [selection.attr(name, v)],
    [selection.html(m)] and [selection.append(child)] on one element. *)
Definition createElement (tag : string) : Node := mkNode tag [] "" [].

Definition d3_attr (name v : string) (n : Node) : Node :=
  mkNode (nodeName n) (setProperty name v (attributes n)) (markup n)
         (childNodes n).

Definition d3_html (m : string) (n : Node) : Node :=
  mkNode (nodeName n) (attributes n) m [].

Definition d3_append (child : Node) (n : Node) : Node :=
  mkNode (nodeName n) (attributes n) (markup n) (childNodes n ++ [child]).

Definition d3_appendAll (children : list Node) (n : Node) : Node :=
  mkNode (nodeName n) (attributes n) (markup n) (childNodes n ++ children).

Definition getAttribute (name : string) (n : Node) : option string :=
  (λ found, found.2.2) <$> list_find (λ a, a.1 = name) (attributes n).

(** An element and everything below it, in document order. *)
Fixpoint descendants (n : Node) : list Node :=
  match n with
  | mkNode _ _ _ children =>
      n :: (fix below (l : list Node) : list Node :=
              match l with
              | [] => []
              | child :: l => descendants child ++ below l
              end) children
  end.

(** [selection.selectAll('.' + cls)] and [selection.selectAll(tag)] on one
    element: the matching elements below it. *)
Definition hasClass (cls : string) (n : Node) : Prop :=
  ∃ classes, getAttribute "class" n = Some classes ∧ cls ∈ String.words classes.

Global Instance hasClass_dec cls n : Decision (hasClass cls n).
Proof.
  unfold hasClass. destruct (getAttribute "class" n) as [classes|].
  - destruct (decide (cls ∈ String.words classes)) as [Hin|Hnin].
    + left. by exists classes.
    + right. intros (classes' & [= <-] & Hin). by apply Hnin.
  - right. by intros (classes' & [=] & _).
Defined.

Definition selectAllClass (cls : string) (n : Node) : list Node :=
  filter (hasClass cls) (childNodes n ≫= descendants).

Definition selectAllTag (tag : string) (n : Node) : list Node :=
  filter (λ m, nodeName m = tag) (childNodes n ≫= descendants).

(** [selection.data(data).enter()] without a key function: the data that
    have no element in the selection, by index. *)
Definition enter {A} (selection : list Node) (data : list A) : list A :=
  drop (length selection) data.

Local Notation "x |> f" := (f x) (at level 45, left associativity, only parsing).

(** [renderHelp_]: the element it appends to the parent. *)
Definition renderHelp_ (this : CodeHeatmap) : Node :=
  createElement "div"
  |> d3_attr "class" "tabhelp inactive-tabhelp"
  |> d3_html (HELP_MESSAGE this).

(** The link of a file in the module list and the header of a file. *)
Definition moduleLink (d : Stats) : Node :=
  createElement "a"
  |> d3_attr "href" ("#" +:+ name d)
  |> d3_append
       (createElement "div"
        |> d3_attr "class" "heatmap-module-name"
        |> d3_append (createElement "text" |> d3_html (name d))).

Definition fileHeader (d : Stats) : Node :=
  createElement "a"
  |> d3_attr "href" ("#" +:+ name d)
  |> d3_attr "class" "heatmap-src-code-header"
  |> d3_attr "id" (name d)
  |> d3_append (createElement "text" |> d3_html (name d)).

Definition moduleList (this : CodeHeatmap) : Node :=
  let moduleList :=
    createElement "div"
    |> d3_attr "class" "heatmap-module-list"
    |> d3_append
         (createElement "div"
          |> d3_attr "class" "heatmap-module-header"
          |> d3_html "Inspected modules") in
  moduleList
  |> d3_appendAll
       (moduleLink <$>
          enter (selectAllClass "heatmap-module-name" moduleList)
                (heatmaps (data_ this))).

(** The container of one file, with [srcCode] the markup of
    [renderedSources[i]]. *)
Definition fileNode (d : Stats) (srcCode : string) : Node :=
  createElement "div"
  |> d3_attr "class" "heatmap-src-file"
  |> d3_append (fileHeader d)
  |> d3_append
       (createElement "div"
        |> d3_attr "class" "heatmap-src-code"
        |> d3_append (createElement "text" |> d3_html srcCode)).

Definition codeContainer (this : CodeHeatmap)
    (renderedSources : list Rendered.t) : Node :=
  let codeContainer :=
    createElement "div" |> d3_attr "class" "heatmap-code-container" in
  codeContainer
  |> d3_appendAll
       (imap (λ i d,
                fileNode d (default "" (Rendered.srcCode <$>
                                          renderedSources !! i)))
             (enter (selectAllTag "div" codeContainer)
                    (heatmaps (data_ this)))).

Definition pageContainer (this : CodeHeatmap)
    (renderedSources : list Rendered.t) : Node :=
  createElement "div"
  |> d3_attr "id" "heatmap-layout"
  |> d3_append (moduleList this)
  |> d3_append (codeContainer this renderedSources)
  |> d3_append
       (createElement "div"
        |> d3_attr "class" "content-tooltip content-tooltip-invisible").

(** The static part of [render]: the parent after it. The page container
    is appended to the parent before [renderHelp_] runs, so the help
    banner follows it. *)
Definition renderLayout (parent : Node) : M Node :=
  this ← gets self;
  renderedSources ←
    forEach (λ (acc : list Rendered.t) stats,
               r ← renderCode_ stats; mret (acc ++ [r]))
            [] (heatmaps (data_ this));
  mret (parent
        |> d3_append (pageContainer this renderedSources)
        |> d3_append (renderHelp_ this)).

(** The elements that carry a given [id]. *)
Definition elementsById (id : string) (nodes : list Node) : list Node :=
  filter (λ n, getAttribute "id" n = Some id) nodes.

(** The markup inserted into a code body, for an element that is one. *)
Definition codeBodyMarkup (n : Node) : option string :=
  if decide (getAttribute "class" n = Some "heatmap-src-code")
  then markup <$> head (childNodes n)
  else None.

(** The link of a file in the module list leads to the header of this
    file, in the layout [render] appends to [parent]. *)
Definition linkResolves (parent : Node) (w : World) (stats : Stats) : Prop :=
  ∃ layout help,
    childNodes (renderLayout parent w).1 =
      childNodes parent ++ [layout; help] ∧
    moduleLink stats ∈ descendants layout ∧
    getAttribute "href" (moduleLink stats) = Some ("#" +:+ name stats) ∧
    elementsById (name stats) (descendants layout) = [fileHeader stats] ∧
    getAttribute "id" (fileHeader stats) = Some (name stats).

End CodeHeatmap.

(** ** A worked report

    The report [{runTime: 10, heatmaps: [{srcCode: [['line', 1, 'a=1'],
    ['skip', 3], ['line', 5, 'b=2']], heatmap: {1: 0.5},
    executionCount: {1: 4}}]}], with stand-ins for the collaborators: a
    highlighter that returns the code as it is, a scale that always
    answers with the upper colour of its range, and a number printer that
    knows [NaN] and the numbers of this report (and prints [?] for any
    other). *)

Definition plain_highlight (language code : string) : string := code.

Definition flat_scaleLog (domain : float * float) (range : string * string)
    (v : value) : string := range.2.

Definition table_Number_toString (x : float) : string :=
  if negb (PrimFloat.eqb x x) then "NaN"
  else if PrimFloat.eqb x 0.5 then "0.5"
  else if PrimFloat.eqb x 4 then "4"
  else if PrimFloat.eqb x 5 then "5"
  else if PrimFloat.eqb x 10 then "10"
  else "?".

Definition sample_collaborators : Collaborators :=
  {| hljs_highlight := plain_highlight;
     d3_scaleLog := flat_scaleLog;
     Number_toString := table_Number_toString |}.

Definition sample_stats : Stats :=
  {| name := "a.py";
     srcCode := [Line 1 "a=1"; Skip 3; Line 5 "b=2"];
     heatmap := {[ 1%Z := 0.5%float ]};
     executionCount := {[ 1%Z := 4%float ]} |}.

Definition sample_data : Data :=
  {| runTime := 10%float; heatmaps := [sample_stats] |}.

Definition empty_page : Page :=
  {| fileContainers := [];
     tooltip := {| className := ""; style := []; innerHTML := "" |} |}.

Definition sample_world : World :=
  {| self := new_CodeHeatmap (H := sample_collaborators) sample_data;
     page := empty_page;
     d3select_event := {| pageX := 7; pageY := 9 |} |}.

(** The same file for a report that has a count for line 1 but no time,
    and for a report that has only ['skip'] entries. *)
Definition count_only_stats : Stats :=
  {| name := "a.py";
     srcCode := [Line 1 "a=1"];
     heatmap := ∅;
     executionCount := {[ 1%Z := 4%float ]} |}.

Definition count_only_data : Data :=
  {| runTime := 10%float; heatmaps := [count_only_stats] |}.

Definition skipped_stats : Stats :=
  {| name := "b.py";
     srcCode := [Skip 3; Skip 2];
     heatmap := ∅;
     executionCount := ∅ |}.

(** The listeners of the two rows of the worked report, and a pointer that
    enters the first row, moves on to the second and leaves the first. *)
Definition sample_row0 : Listener :=
  rowListener (H := sample_collaborators) sample_world 0 sample_stats 0.

Definition sample_row2 : Listener :=
  rowListener (H := sample_collaborators) sample_world 0 sample_stats 2.

Definition sample_events : list HoverEvent :=
  [ {| eventType := Mouseover; listener := sample_row0;
       event := {| pageX := 7; pageY := 9 |} |};
    {| eventType := Mouseover; listener := sample_row2;
       event := {| pageX := 7; pageY := 30 |} |};
    {| eventType := Mouseout; listener := sample_row0;
       event := {| pageX := 8; pageY := 30 |} |} ].

(** A report with a negative time for line 1, and collaborators whose
    scale answers with the sign of the number it is applied to. *)
Definition negative_stats : Stats :=
  {| name := "a.py";
     srcCode := [Line 1 "a=1"];
     heatmap := {[ 1%Z := (-1)%float ]};
     executionCount := {[ 1%Z := 4%float ]} |}.

Definition sign_scaleLog (domain : float * float) (range : string * string)
    (v : value) : string :=
  match v with
  | Undefined => "undefined"
  | Number x =>
      if PrimFloat.ltb x 0 then "negative"
      else if PrimFloat.ltb 0 x then "positive"
      else "zero or NaN"
  end.

Definition sign_collaborators : Collaborators :=
  {| hljs_highlight := plain_highlight;
     d3_scaleLog := sign_scaleLog;
     Number_toString := table_Number_toString |}.

Definition negative_world : World :=
  {| self := new_CodeHeatmap (H := sign_collaborators)
               {| runTime := 10%float; heatmaps := [negative_stats] |};
     page := empty_page;
     d3select_event := {| pageX := 0; pageY := 0 |} |}.

(** A report whose only file is named like the [id] of the page
    container. *)
Definition clash_stats : Stats :=
  {| name := "heatmap-layout";
     srcCode := [];
     heatmap := ∅;
     executionCount := ∅ |}.

Definition clash_world : World :=
  {| self := new_CodeHeatmap (H := sample_collaborators)
               {| runTime := 10%float; heatmaps := [clash_stats] |};
     page := empty_page;
     d3select_event := {| pageX := 0; pageY := 0 |} |}.

(** The page after [renderCodeHeatmap] and then hover-enter on each bound
    row, one page per listener. *)
Definition hoverEach (data : Data) (ev : Event) : list Page :=
  let (listeners, w) :=
    renderCodeHeatmap (H := sample_collaborators) data empty_page ev in
  (λ l, page (on_mouseover l w).2) <$> listeners.

(** ** Properties *)

Section Properties.

Context `{Collaborators}.

(** *** Strings *)

Lemma string_app_assoc (s1 s2 s3 : string) :
  s1 +:+ (s2 +:+ s3) = (s1 +:+ s2) +:+ s3.
Proof using Type.
  induction s1 as [|a s1 IH]; [reflexivity|].
  change (String a (s1 +:+ (s2 +:+ s3)) = String a ((s1 +:+ s2) +:+ s3)).
  by rewrite IH.
Qed.

Lemma join_app (l1 l2 : list string) : join (l1 ++ l2) = join l1 +:+ join l2.
Proof using Type.
  induction l1 as [|s l1 IH]; [reflexivity|].
  change (s +:+ join (l1 ++ l2) = (s +:+ join l1) +:+ join l2).
  by rewrite IH, string_app_assoc.
Qed.

(** *** The monad and the loop *)

Lemma bind_run {A B} (m : M A) (f : A → M B) w a w' :
  m w = (a, w') → (m ≫= f) w = f a w'.
Proof. intros Hm. unfold mbind, M_bind. by rewrite Hm. Qed.

Lemma forEach_app {A B} (body : A → B → M A) (acc : A) (l1 l2 : list B) w :
  forEach body acc (l1 ++ l2) w =
  let (acc', w') := forEach body acc l1 w in forEach body acc' l2 w'.
Proof.
  revert acc w. induction l1 as [|b l1 IH]; intros acc w; simpl.
  - reflexivity.
  - unfold mbind, M_bind. destruct (body acc b w) as [acc' w']. apply IH.
Qed.

Lemma forEach_snoc {A B} (body : A → B → M A) (acc : A) (l : list B) b w :
  forEach body acc (l ++ [b]) w =
  let (acc', w') := forEach body acc l w in body acc' b w'.
Proof.
  rewrite forEach_app. destruct (forEach body acc l w) as [acc' w']. simpl.
  unfold mbind, M_bind, mret, M_ret. by destruct (body acc' b w').
Qed.

(** *** [formatSrcLine_] is a function of its arguments and the object *)

Lemma formatSrcLine__eq lineNumber codeLine runCount w :
  formatSrcLine_ lineNumber codeLine runCount w =
  (outerHTML (srcLineElement (self w) lineNumber codeLine runCount), w).
Proof.
  unfold formatSrcLine_, outerHTML, srcLineElement, gets, mbind, M_bind,
    mret, M_ret; simpl.
  f_equal. rewrite <- !string_app_assoc. reflexivity.
Qed.

(** *** The loop of [renderCode_] in closed form *)

Lemma lineEntries_snoc entries entry :
  lineEntries (entries ++ [entry]) =
  lineEntries entries ++
  match entry with
  | Line lineNumber codeLine => [(lineNumber, codeLine)]
  | _ => []
  end.
Proof.
  unfold lineEntries. rewrite omap_app. f_equal. by destruct entry.
Qed.

Lemma rowElements_app this stats entries1 entries2 :
  rowElements this stats (entries1 ++ entries2) =
  rowElements this stats entries1 ++ rowElements this stats entries2.
Proof. unfold rowElements. apply bind_app. Qed.

Lemma rowElements_snoc this stats entries entry :
  rowElements this stats (entries ++ [entry]) =
  rowElements this stats entries ++ entryElements this stats entry.
Proof.
  rewrite rowElements_app. f_equal. unfold rowElements. simpl.
  apply app_nil_r.
Qed.

Lemma outerHTML_skipElement count :
  outerHTML (skipElement count) = skipMarker count.
Proof.
  unfold outerHTML, skipElement, skipMarker; simpl.
  rewrite <- !string_app_assoc. reflexivity.
Qed.

(** After any prefix of the entries, the loop variables are: the markup of
    the entries seen, the times and the counts of the ['line'] entries seen
    at positions [0, 1, ...], and the number of ['line'] entries seen; the
    object, the page and the event are as before. *)
Lemma renderCode_loop_eq stats entries w :
  renderCode_loop stats entries w =
  ({| outputCode := outerHTML <$> rowElements (self w) stats entries;
      timeMap := map_seq 0 (timeOf stats <$> lineEntries entries);
      srcIndex := length (lineEntries entries);
      countMap := map_seq 0 (countOf stats <$> lineEntries entries) |}, w).
Proof.
  unfold renderCode_loop.
  induction entries as [|entry entries IH] using rev_ind; [reflexivity|].
  rewrite forEach_snoc, IH, lineEntries_snoc, rowElements_snoc, fmap_app.
  destruct entry as [lineNumber codeLine|count|tag]; simpl.
  - unfold mbind, M_bind. rewrite formatSrcLine__eq.
    unfold mret, M_ret. simpl.
    rewrite !fmap_app, !list_fmap_singleton, !map_seq_snoc, !length_fmap,
      length_app.
    simpl. do 2 f_equal. lia.
  - unfold mret, M_ret. simpl.
    by rewrite outerHTML_skipElement, !app_nil_r.
  - unfold mret, M_ret. by rewrite !app_nil_r.
Qed.

Lemma renderCode__eq stats w :
  renderCode_ stats w =
  ({| Rendered.srcCode :=
        join (outerHTML <$> rowElements (self w) stats (srcCode stats));
      Rendered.timeMap :=
        map_seq 0 (timeOf stats <$> lineEntries (srcCode stats));
      Rendered.countMap :=
        map_seq 0 (countOf stats <$> lineEntries (srcCode stats)) |}, w).
Proof.
  unfold renderCode_, mbind, M_bind. by rewrite renderCode_loop_eq.
Qed.

(** The markup of a file is the serialisation of the elements the page
    model puts into its container. *)
Lemma renderCode__markup stats w :
  Rendered.srcCode (renderCode_ stats w).1 =
  join (outerHTML <$> rowElements (self w) stats (srcCode stats)).
Proof. by rewrite renderCode__eq. Qed.

(** *** The reindexer *)

Lemma lineEntries_app entries1 entries2 :
  lineEntries (entries1 ++ entries2) =
  lineEntries entries1 ++ lineEntries entries2.
Proof. unfold lineEntries. apply omap_app. Qed.

(** A ['line'] entry splits the ['line'] entries of the file into those
    before it, itself, and those after it. *)
Lemma lineEntries_at entries i lineNumber codeLine :
  entries !! i = Some (Line lineNumber codeLine) →
  lineEntries entries =
  lineEntries (take i entries) ++
  (lineNumber, codeLine) :: lineEntries (drop (S i) entries).
Proof.
  intros Hi. rewrite <- (take_drop_middle _ _ _ Hi) at 1.
  by rewrite lineEntries_app.
Qed.

Lemma lineEntries_take_lt entries i i' lineNumber codeLine :
  entries !! i = Some (Line lineNumber codeLine) → i < i' →
  length (lineEntries (take i entries)) <
  length (lineEntries (take i' entries)).
Proof.
  intros Hi Hlt.
  assert (take i' entries !! i = Some (Line lineNumber codeLine)) as Hi'.
  { by rewrite lookup_take_lt. }
  rewrite (lineEntries_at _ _ _ _ Hi'), take_take, Nat.min_l by lia.
  rewrite length_app. simpl. lia.
Qed.

Lemma positionAt_eq stats i w :
  positionAt stats i w = length (lineEntries (take i (srcCode stats))).
Proof. unfold positionAt. by rewrite renderCode_loop_eq. Qed.

Lemma lookup_position stats i lineNumber codeLine w :
  srcCode stats !! i = Some (Line lineNumber codeLine) →
  lineEntries (srcCode stats) !! positionAt stats i w =
  Some (lineNumber, codeLine).
Proof.
  intros Hi. rewrite positionAt_eq, (lineEntries_at _ _ _ _ Hi).
  by rewrite lookup_app_r, Nat.sub_diag by lia.
Qed.

(** What the two tables hold at the position of a ['line'] entry. *)
Lemma renderCode__tables stats i lineNumber codeLine w :
  srcCode stats !! i = Some (Line lineNumber codeLine) →
  Rendered.timeMap (renderCode_ stats w).1 !! positionAt stats i w =
    Some (jsget (heatmap stats) lineNumber) ∧
  Rendered.countMap (renderCode_ stats w).1 !! positionAt stats i w =
    Some (jsget (executionCount stats) lineNumber).
Proof.
  intros Hi. rewrite renderCode__eq. simpl.
  rewrite !lookup_map_seq_0, !list_lookup_fmap.
  by rewrite (lookup_position _ _ _ _ _ Hi).
Qed.

(** C1. For every file, [renderCode_] gives exactly one position to each
    ['line'] entry: the keys of both tables are exactly [0, ..., N-1] for
    [N] the number of ['line'] entries; the position of a ['line'] entry is
    the number of ['line'] entries before it, so positions follow the
    order of the entries; and a ['skip'] entry leaves the position counter
    and both tables as they are. *)
Theorem renderCode__positions stats w :
  let rendered := (renderCode_ stats w).1 in
  let N := length (lineEntries (srcCode stats)) in
  (∀ p, is_Some (Rendered.timeMap rendered !! p) ↔ p < N) ∧
  (∀ p, is_Some (Rendered.countMap rendered !! p) ↔ p < N) ∧
  (∀ i lineNumber codeLine,
     srcCode stats !! i = Some (Line lineNumber codeLine) →
     positionAt stats i w = length (lineEntries (take i (srcCode stats))) ∧
     lineEntries (srcCode stats) !! positionAt stats i w =
       Some (lineNumber, codeLine) ∧
     Rendered.timeMap rendered !! positionAt stats i w =
       Some (jsget (heatmap stats) lineNumber) ∧
     Rendered.countMap rendered !! positionAt stats i w =
       Some (jsget (executionCount stats) lineNumber) ∧
     ∀ i', i < i' → positionAt stats i w < positionAt stats i' w) ∧
  (∀ vars count w',
     let vars' := (renderCode_body stats vars (Skip count) w').1 in
     srcIndex vars' = srcIndex vars ∧
     timeMap vars' = timeMap vars ∧
     countMap vars' = countMap vars).
Proof.
  intros rendered N. subst rendered N. rewrite renderCode__eq. simpl.
  split_and!.
  - intros p. rewrite lookup_map_seq_0, lookup_lt_is_Some.
    by rewrite length_fmap.
  - intros p. rewrite lookup_map_seq_0, lookup_lt_is_Some.
    by rewrite length_fmap.
  - intros i lineNumber codeLine Hi.
    pose proof (renderCode__tables stats i lineNumber codeLine w Hi) as Ht.
    rewrite renderCode__eq in Ht. simpl in Ht. destruct Ht as [Ht Hc].
    split_and!; [apply positionAt_eq|by apply lookup_position|done|done|].
    intros i' Hlt. rewrite !positionAt_eq.
    by eapply lineEntries_take_lt.
  - done.
Qed.

(** C2. For a ['line'] entry whose line number has a recorded time and a
    recorded count, reading the two tables of [renderCode_] at the entry's
    position yields exactly these two values. *)
Theorem renderCode__roundtrip stats w i lineNumber codeLine t c :
  srcCode stats !! i = Some (Line lineNumber codeLine) →
  heatmap stats !! lineNumber = Some t →
  executionCount stats !! lineNumber = Some c →
  jsread (Rendered.timeMap (renderCode_ stats w).1) (positionAt stats i w) =
    Number t ∧
  jsread (Rendered.countMap (renderCode_ stats w).1) (positionAt stats i w) =
    Number c.
Proof.
  intros Hi Ht Hc.
  unfold jsread.
  destruct (renderCode__tables stats i lineNumber codeLine w Hi) as [-> ->].
  unfold jsget. by rewrite Ht, Hc.
Qed.

(** C10. For a file whose entries are all ['skip'] entries, [renderCode_]
    returns (leaving object, page and event as they were) empty tables
    and, as markup, the markers
    [<div class='heatmap-skip-line'>count lines skipped</div>] of the
    entries, one after the other in the order of the entries, and nothing
    else; for a file without entries the markup is the empty string. *)
Theorem renderCode__all_skipped stats w counts :
  srcCode stats = Skip <$> counts →
  renderCode_ stats w =
  ({| Rendered.srcCode :=
        foldr (λ count markup,
                 "<div class='heatmap-skip-line'>" +:+ Int_toString count +:+
                 " lines skipped</div>" +:+ markup) "" counts;
      Rendered.timeMap := ∅;
      Rendered.countMap := ∅ |}, w).
Proof.
  intros Hs. rewrite renderCode__eq, Hs. clear Hs.
  assert (lineEntries (Skip <$> counts) = []) as ->.
  { induction counts as [|c counts IH]; [reflexivity|exact IH]. }
  simpl. do 2 f_equal.
  induction counts as [|c counts IH]; [done|].
  simpl. rewrite outerHTML_skipElement.
  change (skipMarker c +:+
          join (outerHTML <$>
                  rowElements (self w) stats (Skip <$> counts)) =
          "<div class='heatmap-skip-line'>" +:+ Int_toString c +:+
          " lines skipped</div>" +:+
          foldr (λ count markup,
                   "<div class='heatmap-skip-line'>" +:+
                   Int_toString count +:+
                   " lines skipped</div>" +:+ markup) "" counts).
  rewrite IH. unfold skipMarker. by rewrite <- !string_app_assoc.
Qed.

(** *** Elements of the page under the handlers *)

Lemma getElement_onElement ref f w :
  getElement (page (onElement ref f w).2) ref = f <$> getElement (page w) ref.
Proof.
  unfold getElement, onElement, setPage; simpl.
  rewrite list_lookup_alter_eq.
  destruct (fileContainers (page w) !! ref.1) as [container|]; simpl; [|done].
  by rewrite list_lookup_alter_eq.
Qed.

Lemma getElement_onElement_ne ref ref' f w :
  ref' ≠ ref →
  getElement (page (onElement ref f w).2) ref' = getElement (page w) ref'.
Proof.
  intros Hne. unfold getElement, onElement, setPage; simpl.
  destruct (decide (ref.1 = ref'.1)) as [Heq|Hne1].
  - rewrite <- Heq, list_lookup_alter_eq.
    destruct (fileContainers (page w) !! ref.1) as [container|]; simpl;
      [|done].
    rewrite list_lookup_alter_ne; [done|].
    intros Heq2. apply Hne. destruct ref, ref'; simpl in *; congruence.
  - by rewrite list_lookup_alter_ne.
Qed.

(** [showTooltip_] and [hideTooltip_] in closed form. *)
Lemma showTooltip__eq element lineRuntime lineRuncount totalTime w :
  showTooltip_ element lineRuntime lineRuncount totalTime w =
  (tt,
   {| self := self w;
      page :=
        {| fileContainers :=
             fileContainers
               (page (onElement element
                        (attr_class "heatmap-src-line-highlight") w).2);
           tooltip :=
             {| className := "content-tooltip content-tooltip-visible";
                style :=
                  setProperty "top" (Int_toString (pageY (d3select_event w)))
                    (setProperty "left"
                       (Int_toString (pageX (d3select_event w)))
                       (style (tooltip (page w))));
                innerHTML :=
                  "<p><b>Time spent: </b>" +:+ ToString lineRuntime +:+
                    " s</p>" +:+
                  "<p><b>Total running time: </b>" +:+
                    Number_toString totalTime +:+ " s</p>" +:+
                  "<p><b>Percentage: </b>" +:+
                    Number_toString
                      (100 * (ToNumber lineRuntime / totalTime))%float +:+
                    "%</p>" +:+
                  "<p><b>Run count: </b>" +:+ ToString lineRuncount +:+
                    "</p>" |} |};
      d3select_event := d3select_event w |}).
Proof. reflexivity. Qed.

Lemma hideTooltip__eq element w :
  hideTooltip_ element w =
  (tt,
   {| self := self w;
      page :=
        {| fileContainers :=
             fileContainers
               (page (onElement element
                        (attr_class "heatmap-src-line-normal") w).2);
           tooltip :=
             attr_class "content-tooltip content-tooltip-invisible"
               (tooltip (page w)) |};
      d3select_event := d3select_event w |}).
Proof. reflexivity. Qed.

(** *** Which elements get the hover handlers *)

Lemma selectAllFrom_app cls k els1 els2 :
  selectAllFrom cls k (els1 ++ els2) =
  selectAllFrom cls k els1 ++ selectAllFrom cls (k + length els1) els2.
Proof.
  revert k. induction els1 as [|e els1 IH]; intros k; simpl.
  - by rewrite Nat.add_0_r.
  - rewrite IH, <- app_assoc. do 3 f_equal. lia.
Qed.

(** A selected index is the index of an element of the class. *)
Lemma selectAllFrom_elem_of cls k0 els k :
  k ∈ selectAllFrom cls k0 els →
  k0 ≤ k ∧ ∃ e, els !! (k - k0) = Some e ∧ className e = cls.
Proof.
  revert k0. induction els as [|e els IH]; intros k0; simpl.
  - by intros ?%elem_of_nil.
  - rewrite elem_of_app. intros [Hk|Hk].
    + case_decide as Hcls; [|by apply elem_of_nil in Hk].
      apply list_elem_of_singleton in Hk as ->.
      split; [lia|]. exists e. by rewrite Nat.sub_diag.
    + apply IH in Hk as [Hle (e' & He' & Hcls)]. split; [lia|].
      exists e'. split; [|done].
      by replace (k - k0) with (S (k - S k0)) by lia.
Qed.

Lemma selectAll_elem_of cls els k :
  k ∈ selectAll cls els → ∃ e, els !! k = Some e ∧ className e = cls.
Proof.
  intros [_ (e & He & Hcls)]%selectAllFrom_elem_of.
  exists e. by rewrite Nat.sub_0_r in He.
Qed.

Lemma selectAll_entryElements this stats entry k :
  selectAllFrom "heatmap-src-line-normal" k (entryElements this stats entry) =
  match entry with Line _ _ => [k] | _ => [] end.
Proof. by destruct entry. Qed.

(** The selection has one index per ['line'] entry. *)
Lemma length_selectAll_rows this stats entries :
  length (selectAll "heatmap-src-line-normal"
            (rowElements this stats entries)) =
  length (lineEntries entries).
Proof.
  unfold selectAll.
  induction entries as [|entry entries IH] using rev_ind; [done|].
  rewrite rowElements_snoc, selectAllFrom_app, lineEntries_snoc, !length_app.
  rewrite IH, selectAll_entryElements. by destruct entry.
Qed.

(** The element selected at a position is the row of the ['line'] entry
    that has this position. *)
Lemma selectAll_rows this stats entries i lineNumber codeLine :
  entries !! i = Some (Line lineNumber codeLine) →
  let k := length (rowElements this stats (take i entries)) in
  selectAll "heatmap-src-line-normal" (rowElements this stats entries)
    !! length (lineEntries (take i entries)) = Some k ∧
  rowElements this stats entries !! k =
    Some (srcLineElement this lineNumber codeLine
            (jsget (heatmap stats) lineNumber)).
Proof.
  intros Hi k. subst k.
  assert (rowElements this stats entries =
          rowElements this stats (take i entries) ++
          srcLineElement this lineNumber codeLine
            (jsget (heatmap stats) lineNumber) ::
          rowElements this stats (drop (S i) entries)) as ->.
  { rewrite <- (take_drop_middle _ _ _ Hi) at 1. by rewrite rowElements_app. }
  split.
  - unfold selectAll. rewrite selectAllFrom_app.
    pose proof (length_selectAll_rows this stats (take i entries)) as Hlen.
    unfold selectAll in Hlen.
    rewrite lookup_app_r; rewrite Hlen; [|done].
    by rewrite Nat.sub_diag.
  - by rewrite lookup_app_r, Nat.sub_diag.
Qed.

(** *** [render] in closed form *)

Lemma render_sources_eq (l : list Stats) acc w :
  forEach (λ (acc : list Rendered.t) stats,
             r ← renderCode_ stats; mret (acc ++ [r])) acc l w =
  (acc ++ ((λ stats, (renderCode_ stats w).1) <$> l), w).
Proof.
  revert acc. induction l as [|stats l IH]; intros acc; simpl.
  - by rewrite app_nil_r.
  - erewrite bind_run;
      [|erewrite bind_run; [reflexivity|apply renderCode__eq]].
    rewrite IH, <- app_assoc. by rewrite renderCode__eq.
Qed.

Lemma render_eq w :
  render w =
  (mjoin (imap (λ i stats,
            bindFile i (renderCode_ stats w).1
              (rowElements (self w) stats (srcCode stats)))
          (heatmaps (data_ (self w)))),
   {| self := self w; page := renderedPage (self w);
      d3select_event := d3select_event w |}).
Proof.
  unfold render. erewrite bind_run; [|reflexivity].
  erewrite bind_run; [|apply render_sources_eq].
  unfold gets, setPage, mbind, M_bind, mret, M_ret. simpl. do 2 f_equal.
  rewrite imap_fmap. apply imap_ext. intros i stats Hi. simpl.
  by rewrite list_lookup_fmap, Hi.
Qed.

(** Every listener of [render] sits on the row of a ['line'] entry and
    carries the handlers of that entry's position. *)
Lemma render_listeners w l :
  l ∈ (render w).1 →
  ∃ i stats j k,
    heatmaps (data_ (self w)) !! i = Some stats ∧
    selectAll "heatmap-src-line-normal"
      (rowElements (self w) stats (srcCode stats)) !! j = Some k ∧
    l = {| target := (i, k);
           on_mouseover := mouseover_handler (renderCode_ stats w).1 j (i, k);
           on_mouseout := mouseout_handler (i, k) |}.
Proof.
  rewrite render_eq. simpl.
  intros (ls & Hl & Hls)%list_elem_of_join.
  apply elem_of_lookup_imap in Hls as (i & stats & -> & Hi).
  apply elem_of_lookup_imap in Hl as (j & k & -> & Hj).
  by exists i, stats, j, k.
Qed.

(** *** Skip markers *)

(** C8. A ['skip'] entry makes the loop push exactly one piece of markup,
    [<div class='heatmap-skip-line'>count lines skipped</div>]; in the page
    this is one element, placed between the elements of the entries before
    and after it, whose class is the skip-marker class and whose text is
    the count followed by [ lines skipped]; the selection of interactive
    rows does not contain it, and no listener bound by [render] has it as
    target. *)
Theorem skip_entry_marker stats i count w :
  srcCode stats !! i = Some (Skip count) →
  let this := self w in
  let before := rowElements this stats (take i (srcCode stats)) in
  let after := rowElements this stats (drop (S i) (srcCode stats)) in
  (∀ vars w',
     outputCode (renderCode_body stats vars (Skip count) w').1 =
     outputCode vars ++
     ["<div class='heatmap-skip-line'>" +:+ Int_toString count +:+
      " lines skipped</div>"]) ∧
  Rendered.srcCode (renderCode_ stats w).1 =
    join (outerHTML <$> before) +:+
    ("<div class='heatmap-skip-line'>" +:+ Int_toString count +:+
     " lines skipped</div>") +:+
    join (outerHTML <$> after) ∧
  rowElements this stats (srcCode stats) =
    before ++ skipElement count :: after ∧
  className (skipElement count) = "heatmap-skip-line" ∧
  innerHTML (skipElement count) = Int_toString count +:+ " lines skipped" ∧
  (length before ∉
     selectAll "heatmap-src-line-normal"
       (rowElements this stats (srcCode stats))) ∧
  (∀ fileIndex l,
     heatmaps (data_ this) !! fileIndex = Some stats →
     l ∈ (render w).1 → target l ≠ (fileIndex, length before)).
Proof.
  intros Hi this before after.
  assert (rowElements this stats (srcCode stats) =
          before ++ skipElement count :: after) as Hrows.
  { subst before after. rewrite <- (take_drop_middle _ _ _ Hi) at 1.
    by rewrite rowElements_app. }
  assert (Hsel : length before ∉
            selectAll "heatmap-src-line-normal"
              (rowElements this stats (srcCode stats))).
  { intros (e & He & Hcls)%selectAll_elem_of.
    rewrite Hrows, lookup_app_r, Nat.sub_diag in He by done.
    simpl in He. injection He as <-. discriminate Hcls. }
  split_and!; [done| |done|done|done|done|].
  - rewrite renderCode__eq. simpl. fold this. rewrite Hrows.
    rewrite fmap_app, join_app. simpl.
    by rewrite outerHTML_skipElement.
  - intros fileIndex l Hfile Hl Htarget.
    apply render_listeners in Hl as (i' & stats' & j & k & Hi' & Hk & ->).
    simpl in Htarget. injection Htarget as -> Hk'.
    unfold this in Hfile. rewrite Hfile in Hi'. injection Hi' as <-.
    apply Hsel. apply list_elem_of_lookup. exists j. by rewrite <- Hk'.
Qed.

(** *** The formatter *)

(** A negative number is truthy. *)
Lemma ToBoolean_negative x :
  PrimFloat.ltb x 0 = true → ToBoolean (Number x) = true.
Proof.
  unfold ToBoolean.
  rewrite !FloatAxioms.eqb_spec, FloatAxioms.ltb_spec.
  destruct (Prim2SF x) as [[]|[]| |[] m e]; simpl; try discriminate.
  - done.
  - intros _. unfold SFeqb. simpl.
    by rewrite Z.compare_refl, Pos.compare_refl.
Qed.

Lemma noTime_falsy runCount : noTime runCount → ToBoolean runCount = false.
Proof. intros [->|(x & -> & Hx)]; simpl; [done|]. by rewrite Hx. Qed.

(** C6, as the code has it. For a time that is absent or zero (and for
    any other falsy one), [formatSrcLine_] yields the row with the empty
    background, whatever the object's scale is: the result is the same
    for every object, so the scale is not consulted. The guard is
    truthiness: the scale is applied exactly when the time is a number
    that is neither zero nor NaN, whatever its sign, so a negative time
    is passed to the scale like a positive one. *)
Theorem formatSrcLine__guard lineNumber codeLine runCount w :
  (noTime runCount →
     (formatSrcLine_ lineNumber codeLine runCount w).1 =
       rowMarkup "" lineNumber codeLine ∧
     ∀ w', (formatSrcLine_ lineNumber codeLine runCount w').1 =
           (formatSrcLine_ lineNumber codeLine runCount w).1) ∧
  (ToBoolean runCount = false →
     (formatSrcLine_ lineNumber codeLine runCount w).1 =
       rowMarkup "" lineNumber codeLine) ∧
  (ToBoolean runCount = true →
     (formatSrcLine_ lineNumber codeLine runCount w).1 =
       rowMarkup (heatmapScale_ (self w) runCount) lineNumber codeLine ∧
     ∃ x, runCount = Number x ∧
          PrimFloat.eqb x 0 = false ∧ PrimFloat.eqb x x = true) ∧
  (∀ x, runCount = Number x → PrimFloat.ltb x 0 = true →
     (formatSrcLine_ lineNumber codeLine runCount w).1 =
       rowMarkup (heatmapScale_ (self w) (Number x)) lineNumber codeLine).
Proof.
  unfold formatSrcLine_, rowMarkup, gets, mbind, M_bind, mret, M_ret; simpl.
  split_and!.
  - intros Hno%noTime_falsy. rewrite Hno. by split.
  - by intros ->.
  - intros Hb. rewrite Hb. split; [done|].
    destruct runCount as [|x]; [done|]. exists x.
    split_and!; [done| |].
    + simpl in Hb. by destruct (PrimFloat.eqb x 0).
    + simpl in Hb. destruct (PrimFloat.eqb x x); [done|].
      by destruct (PrimFloat.eqb x 0).
  - intros x -> Hneg. by rewrite (ToBoolean_negative x Hneg).
Qed.

(** C9. A call of [formatSrcLine_] leaves the object, the page and the
    event as they were; its result is determined by its arguments and the
    object; two calls with the same arguments give the same markup; and
    two calls in either order give the same two results. *)
Theorem formatSrcLine__pure lineNumber codeLine runCount
    lineNumber' codeLine' runCount' w :
  (formatSrcLine_ lineNumber codeLine runCount w).2 = w ∧
  (∀ w', self w' = self w →
     (formatSrcLine_ lineNumber codeLine runCount w').1 =
     (formatSrcLine_ lineNumber codeLine runCount w).1) ∧
  (x ← formatSrcLine_ lineNumber codeLine runCount;
   y ← formatSrcLine_ lineNumber codeLine runCount;
   mret (x, y)) w =
    (((formatSrcLine_ lineNumber codeLine runCount w).1,
      (formatSrcLine_ lineNumber codeLine runCount w).1), w) ∧
  (x ← formatSrcLine_ lineNumber codeLine runCount;
   y ← formatSrcLine_ lineNumber' codeLine' runCount';
   mret (x, y)) w =
  (y ← formatSrcLine_ lineNumber' codeLine' runCount';
   x ← formatSrcLine_ lineNumber codeLine runCount;
   mret (x, y)) w.
Proof.
  split_and!.
  - by rewrite formatSrcLine__eq.
  - intros w' Hself. by rewrite !formatSrcLine__eq, Hself.
  - erewrite bind_run; [|apply formatSrcLine__eq].
    erewrite bind_run; [|apply formatSrcLine__eq].
    by rewrite formatSrcLine__eq.
  - erewrite bind_run; [|apply formatSrcLine__eq].
    erewrite bind_run; [|apply formatSrcLine__eq].
    symmetry.
    erewrite bind_run; [|apply formatSrcLine__eq].
    erewrite bind_run; [|apply formatSrcLine__eq].
    done.
Qed.

(** Conversely, [render] binds a listener on the row of every ['line']
    entry of every file, with the handlers of the entry's position. *)
Lemma render_binds_rows w fileIndex stats i lineNumber codeLine :
  heatmaps (data_ (self w)) !! fileIndex = Some stats →
  srcCode stats !! i = Some (Line lineNumber codeLine) →
  let this :=
    (fileIndex,
     length (rowElements (self w) stats (take i (srcCode stats)))) in
  {| target := this;
     on_mouseover :=
       mouseover_handler (renderCode_ stats w).1 (positionAt stats i w) this;
     on_mouseout := mouseout_handler this |} ∈ (render w).1.
Proof.
  intros Hfile Hi this. rewrite render_eq. simpl.
  apply list_elem_of_join. eexists. split; last first.
  { apply elem_of_lookup_imap. by exists fileIndex, stats. }
  apply elem_of_lookup_imap.
  exists (positionAt stats i w),
    (length (rowElements (self w) stats (take i (srcCode stats)))).
  split; [done|]. rewrite positionAt_eq.
  by apply (selectAll_rows (self w) stats (srcCode stats) i _ _ Hi).
Qed.

(** *** Hover *)


(** C3, as the code has it. Every row of a ['line'] entry has a listener
    bound by [render], and its hover-enter is decided by the entry's
    execution count alone. If the count is absent or falsy (zero, NaN),
    nothing changes: the row keeps its class and the tooltip stays as it
    is. Otherwise the row is highlighted, no other row is touched, the
    tooltip becomes visible and its content is exactly the time read for
    the line, the report's run time, [100 * (time / runTime)] without any
    rounding, and the count. [w0] is the world [render] ran in, [w] the
    world at the time of the event. *)
Theorem mouseover_handler_spec w0 fileIndex stats i lineNumber codeLine w :
  heatmaps (data_ (self w0)) !! fileIndex = Some stats →
  srcCode stats !! i = Some (Line lineNumber codeLine) →
  let this :=
    (fileIndex,
     length (rowElements (self w0) stats (take i (srcCode stats)))) in
  let handler :=
    mouseover_handler (renderCode_ stats w0).1 (positionAt stats i w0) this in
  let time := jsget (heatmap stats) lineNumber in
  let count := jsget (executionCount stats) lineNumber in
  let totalTime := runTime (data_ (self w)) in
  let w' := (handler w).2 in
  (∃ l, l ∈ (render w0).1 ∧ target l = this ∧ on_mouseover l = handler) ∧
  (ToBoolean count = false → w' = w) ∧
  (ToBoolean count = true →
     self w' = self w ∧
     getElement (page w') this =
       attr_class "heatmap-src-line-highlight" <$> getElement (page w) this ∧
     (∀ other, other ≠ this →
        getElement (page w') other = getElement (page w) other) ∧
     className (tooltip (page w')) =
       "content-tooltip content-tooltip-visible" ∧
     innerHTML (tooltip (page w')) =
       "<p><b>Time spent: </b>" +:+ ToString time +:+ " s</p>" +:+
       "<p><b>Total running time: </b>" +:+ Number_toString totalTime +:+
         " s</p>" +:+
       "<p><b>Percentage: </b>" +:+
         Number_toString (100 * (ToNumber time / totalTime))%float +:+
         "%</p>" +:+
       "<p><b>Run count: </b>" +:+ ToString count +:+ "</p>").
Proof.
  intros Hfile Hi this handler time count totalTime w'.
  split.
  { eexists. split; [by apply (render_binds_rows w0 _ _ _ _ _ Hfile Hi)|].
    done. }
  clearbody this.
  destruct (renderCode__tables stats i lineNumber codeLine w0 Hi) as [Ht Hc].
  assert (jsread (Rendered.timeMap (renderCode_ stats w0).1)
            (positionAt stats i w0) = time) as Htime.
  { unfold jsread. by rewrite Ht. }
  assert (jsread (Rendered.countMap (renderCode_ stats w0).1)
            (positionAt stats i w0) = count) as Hcount.
  { unfold jsread. by rewrite Hc. }
  subst w' handler. unfold mouseover_handler. rewrite Htime, Hcount.
  split; intros Hb; rewrite Hb; [done|].
  unfold mbind, M_bind, gets. rewrite showTooltip__eq. simpl.
  split_and!; [done| |intros other Hne|done|done].
  - apply getElement_onElement.
  - by apply getElement_onElement_ne.
Qed.


(** ** Further properties *)

(** *** [renderCode_]: unknown tags and concatenation *)

Lemma rowElements_knownTag this stats entries :
  rowElements this stats (filter knownTag entries) =
  rowElements this stats entries.
Proof.
  induction entries as [|entry entries IH]; [done|].
  destruct entry as [lineNumber codeLine|count|tag].
  - rewrite filter_cons_True by done.
    change (srcLineElement this lineNumber codeLine
              (jsget (heatmap stats) lineNumber) ::
            rowElements this stats (filter knownTag entries) =
            srcLineElement this lineNumber codeLine
              (jsget (heatmap stats) lineNumber) ::
            rowElements this stats entries).
    by rewrite IH.
  - rewrite filter_cons_True by done.
    change (skipElement count ::
            rowElements this stats (filter knownTag entries) =
            skipElement count :: rowElements this stats entries).
    by rewrite IH.
  - rewrite filter_cons_False by (by intros []). exact IH.
Qed.

Lemma lineEntries_knownTag entries :
  lineEntries (filter knownTag entries) = lineEntries entries.
Proof.
  induction entries as [|entry entries IH]; [done|].
  destruct entry as [lineNumber codeLine|count|tag].
  - rewrite filter_cons_True by done.
    change ((lineNumber, codeLine) :: lineEntries (filter knownTag entries) =
            (lineNumber, codeLine) :: lineEntries entries).
    by rewrite IH.
  - rewrite filter_cons_True by done. exact IH.
  - rewrite filter_cons_False by (by intros []). exact IH.
Qed.

(** X1. Entries whose tag is neither ['line'] nor ['skip'] are ignored:
    [renderCode_] gives the same markup and the same two tables as on the
    file without these entries. *)
Theorem renderCode__ignores_unknown_tags stats entries w :
  renderCode_ (withSrcCode stats entries) w =
  renderCode_ (withSrcCode stats (filter knownTag entries)) w.
Proof.
  rewrite !renderCode__eq. simpl.
  change (rowElements (self w) (withSrcCode stats ?e1) ?e2)
    with (rowElements (self w) stats e2).
  by rewrite rowElements_knownTag, lineEntries_knownTag.
Qed.

(** X2. Rendering is compositional in the entries. For a file whose
    entries are [entries1 ++ entries2], the markup is the markup of
    [entries1] followed by the markup of [entries2]; the tables agree with
    those of [entries1] on its positions (appending entries never changes
    an earlier position), and hold the tables of [entries2] shifted by the
    number of ['line'] entries of [entries1]. *)
Theorem renderCode__app stats entries1 entries2 w :
  let r := (renderCode_ (withSrcCode stats (entries1 ++ entries2)) w).1 in
  let r1 := (renderCode_ (withSrcCode stats entries1) w).1 in
  let r2 := (renderCode_ (withSrcCode stats entries2) w).1 in
  let N1 := length (lineEntries entries1) in
  Rendered.srcCode r = Rendered.srcCode r1 +:+ Rendered.srcCode r2 ∧
  (∀ p, p < N1 →
     Rendered.timeMap r !! p = Rendered.timeMap r1 !! p ∧
     Rendered.countMap r !! p = Rendered.countMap r1 !! p) ∧
  (∀ p, Rendered.timeMap r !! (N1 + p) = Rendered.timeMap r2 !! p ∧
        Rendered.countMap r !! (N1 + p) = Rendered.countMap r2 !! p).
Proof.
  intros r r1 r2 N1. subst r r1 r2 N1. rewrite !renderCode__eq. simpl.
  change (rowElements (self w) (withSrcCode stats ?e1) ?e2)
    with (rowElements (self w) stats e2).
  change (timeOf (withSrcCode stats ?e)) with (timeOf stats).
  change (countOf (withSrcCode stats ?e)) with (countOf stats).
  rewrite rowElements_app, fmap_app, join_app, lineEntries_app, !fmap_app.
  split_and!; [done|..].
  - intros p Hp. rewrite !lookup_map_seq_0.
    by rewrite !lookup_app_l by (by rewrite length_fmap).
  - intros p. rewrite !lookup_map_seq_0.
    rewrite !lookup_app_r by (rewrite length_fmap; lia).
    rewrite !length_fmap. by replace (_ + p - _) with p by lia.
Qed.

(** *** [render]: the listeners are exactly those of the rows *)

(** The ['line'] entry at a position. *)
Lemma lineEntries_lookup_inv entries j lineNumber codeLine :
  lineEntries entries !! j = Some (lineNumber, codeLine) →
  ∃ i, entries !! i = Some (Line lineNumber codeLine) ∧
       length (lineEntries (take i entries)) = j.
Proof.
  induction entries as [|entry entries IH] using rev_ind.
  { intros Hj. unfold lineEntries in Hj. simpl in Hj. discriminate. }
  rewrite lineEntries_snoc. intros Hj.
  destruct (decide (j < length (lineEntries entries))) as [Hlt|Hge].
  - rewrite lookup_app_l in Hj by done.
    destruct (IH Hj) as (i & Hi & Hlen). exists i.
    pose proof (lookup_lt_Some _ _ _ Hi) as Hi'.
    rewrite lookup_app_l by done.
    by rewrite take_app_le by lia.
  - rewrite lookup_app_r in Hj by lia.
    destruct entry as [lineNumber' codeLine'|count|tag];
      try (simpl in Hj; discriminate).
    apply list_lookup_singleton_Some in Hj as [Hj0 [= -> ->]].
    exists (length entries).
    rewrite lookup_app_r, Nat.sub_diag by lia. split; [done|].
    rewrite take_app_length. lia.
Qed.

Lemma selectAll_rows_inv this stats entries j k :
  selectAll "heatmap-src-line-normal" (rowElements this stats entries) !! j =
    Some k →
  ∃ i lineNumber codeLine,
    entries !! i = Some (Line lineNumber codeLine) ∧
    j = length (lineEntries (take i entries)) ∧
    k = length (rowElements this stats (take i entries)).
Proof.
  intros Hj. pose proof (lookup_lt_Some _ _ _ Hj) as Hlt.
  rewrite length_selectAll_rows in Hlt.
  apply lookup_lt_is_Some in Hlt as [[lineNumber codeLine] Hline].
  apply lineEntries_lookup_inv in Hline as (i & Hi & Hlen).
  exists i, lineNumber, codeLine. split_and!; [done|done|].
  destruct (selectAll_rows this stats entries i _ _ Hi) as [Hsel _].
  rewrite Hlen, Hj in Hsel. by injection Hsel.
Qed.

Lemma render_listeners_inv w l :
  l ∈ (render w).1 →
  ∃ fileIndex stats i lineNumber codeLine,
    heatmaps (data_ (self w)) !! fileIndex = Some stats ∧
    srcCode stats !! i = Some (Line lineNumber codeLine) ∧
    l = rowListener w fileIndex stats i.
Proof.
  intros (fileIndex & stats & j & k & Hfile & Hk & ->)%render_listeners.
  apply selectAll_rows_inv in Hk as (i & lineNumber & codeLine & Hi & -> & ->).
  exists fileIndex, stats, i, lineNumber, codeLine.
  split_and!; [done|done|]. unfold rowListener. by rewrite positionAt_eq.
Qed.

(** X3. The listeners [render] binds are exactly the listeners of the rows
    of the ['line'] entries of the report's files: every such row has its
    listener, and there is no listener on anything else (a skip marker, an
    entry of unknown tag, a file that is not in the report). *)
Theorem render_listeners_exact w l :
  l ∈ (render w).1 ↔
  ∃ fileIndex stats i lineNumber codeLine,
    heatmaps (data_ (self w)) !! fileIndex = Some stats ∧
    srcCode stats !! i = Some (Line lineNumber codeLine) ∧
    l = rowListener w fileIndex stats i.
Proof.
  split; [apply render_listeners_inv|].
  intros (fileIndex & stats & i & lineNumber & codeLine & Hfile & Hi & ->).
  by apply (render_binds_rows w _ _ _ _ _ Hfile Hi).
Qed.

(** *** [render]: one listener per row *)

Lemma NoDup_selectAllFrom cls k els : NoDup (selectAllFrom cls k els).
Proof.
  revert k. induction els as [|e els IH]; intros k; simpl; [constructor|].
  case_decide; simpl; [|apply IH].
  constructor; [|apply IH].
  intros [Hle _]%selectAllFrom_elem_of. lia.
Qed.

Lemma bindFile_targets i rendered container :
  target <$> bindFile i rendered container =
  pair i <$> selectAll "heatmap-src-line-normal" container.
Proof.
  unfold bindFile. rewrite fmap_imap, <- imap_const. by apply imap_ext.
Qed.

Lemma NoDup_bindFile i rendered container :
  NoDup (target <$> bindFile i rendered container).
Proof.
  rewrite bindFile_targets. apply NoDup_fmap_2; [apply _|].
  apply NoDup_selectAllFrom.
Qed.

Lemma bindFiles_targets_ge (f : Stats → Rendered.t) (g : Stats → list Element)
    n (l : list Stats) x :
  x ∈ mjoin (imap (λ i stats, bindFile (n + i) (f stats) (g stats)) l) →
  n ≤ (target x).1.
Proof.
  intros (ls & Hx & Hls)%list_elem_of_join.
  apply elem_of_lookup_imap in Hls as (i & stats & -> & _).
  apply elem_of_lookup_imap in Hx as (j & k & -> & _). simpl. lia.
Qed.

Lemma NoDup_bindFiles (f : Stats → Rendered.t) (g : Stats → list Element)
    n (l : list Stats) :
  NoDup (target <$>
           mjoin (imap (λ i stats, bindFile (n + i) (f stats) (g stats)) l)).
Proof.
  revert n. induction l as [|stats l IH]; intros n; [constructor|].
  rewrite imap_cons. simpl. rewrite fmap_app. apply NoDup_app.
  assert (imap ((λ i stats, bindFile (n + i) (f stats) (g stats)) ∘ S) l =
          imap (λ i stats, bindFile (S n + i) (f stats) (g stats)) l) as ->.
  { apply imap_ext. intros i stats' _. simpl. f_equal. lia. }
  split_and!; [apply NoDup_bindFile| |apply IH].
  intros ref Hin1 Hin2.
  apply list_elem_of_fmap in Hin1 as (x1 & -> & Hx1).
  apply list_elem_of_fmap in Hin2 as (x2 & Heq & Hx2).
  apply bindFiles_targets_ge in Hx2.
  apply elem_of_lookup_imap in Hx1 as (j & k & -> & _).
  rewrite <- Heq in Hx2. simpl in Hx2. lia.
Qed.

(** X4. [render] binds one listener per ['line'] entry: the number of
    listeners is the number of ['line'] entries of all files together, and
    no two listeners have the same target, so no row gets two handlers for
    one event. *)
Theorem render_one_listener_per_row w :
  length (render w).1 =
    sum_list ((λ stats, length (lineEntries (srcCode stats))) <$>
                heatmaps (data_ (self w))) ∧
  NoDup (target <$> (render w).1).
Proof.
  rewrite render_eq. simpl. split.
  - rewrite length_join, fmap_imap. f_equal.
    rewrite <- imap_const. apply imap_ext. intros i stats _. simpl.
    unfold bindFile. by rewrite length_imap, length_selectAll_rows.
  - apply (NoDup_bindFiles (λ stats, (renderCode_ stats w).1)
             (λ stats, rowElements (self w) stats (srcCode stats)) 0).
Qed.

(** *** Every listener belongs to the line its row shows *)

Lemma render_world w :
  (render w).2 =
  {| self := self w; page := renderedPage (self w);
     d3select_event := d3select_event w |}.
Proof. by rewrite render_eq. Qed.

(** The element [render] puts at the place of a ['line'] entry. *)
Lemma renderedPage_row this fileIndex stats i lineNumber codeLine :
  heatmaps (data_ this) !! fileIndex = Some stats →
  srcCode stats !! i = Some (Line lineNumber codeLine) →
  getElement (renderedPage this)
    (fileIndex, length (rowElements this stats (take i (srcCode stats)))) =
  Some (srcLineElement this lineNumber codeLine
          (jsget (heatmap stats) lineNumber)).
Proof.
  intros Hfile Hi. unfold getElement, renderedPage. simpl.
  rewrite list_lookup_fmap, Hfile. simpl.
  by destruct (selectAll_rows this stats (srcCode stats) i _ _ Hi) as [_ ->].
Qed.

Lemma mouseover_handler_eq stats i lineNumber codeLine w0 this :
  srcCode stats !! i = Some (Line lineNumber codeLine) →
  mouseover_handler (renderCode_ stats w0).1 (positionAt stats i w0) this =
  if ToBoolean (jsget (executionCount stats) lineNumber) then
    s ← gets self;
    showTooltip_ this (jsget (heatmap stats) lineNumber)
      (jsget (executionCount stats) lineNumber) (runTime (data_ s))
  else mret ().
Proof.
  intros Hi. unfold mouseover_handler, jsread.
  by destruct (renderCode__tables stats i lineNumber codeLine w0 Hi)
    as [-> ->].
Qed.

(** X5. Every listener bound by [render] belongs to the line its row
    shows: the element at its target is the row formatted for some
    ['line'] entry of some file of the report, and its hover-enter handler
    is decided by the count recorded for that very line number and, when
    it fires, shows the time and the count recorded for that line number;
    its hover-exit handler is [hideTooltip_] on the same row. Skip markers
    and unknown entries between the lines do not shift the data. *)
Theorem listener_shows_own_line w0 l :
  l ∈ (render w0).1 → showsOwnLine w0 l.
Proof.
  intros (fileIndex & stats & i & lineNumber & codeLine & Hfile & Hi & ->)
    %render_listeners_inv.
  exists stats, lineNumber, codeLine. rewrite render_world. simpl.
  split_and!.
  - apply list_elem_of_lookup. by exists fileIndex.
  - apply list_elem_of_lookup. by exists i.
  - by apply renderedPage_row.
  - apply (mouseover_handler_eq _ _ _ _ _ _ Hi).
  - done.
Qed.

(** *** What hovering keeps *)

Lemma getElement_showTooltip_ this lineRuntime lineRuncount totalTime w ref :
  getElement (page (showTooltip_ this lineRuntime lineRuncount totalTime w).2)
    ref =
  if decide (ref = this)
  then attr_class "heatmap-src-line-highlight" <$> getElement (page w) ref
  else getElement (page w) ref.
Proof.
  rewrite showTooltip__eq. case_decide as Href.
  - subst ref. apply getElement_onElement.
  - by apply getElement_onElement_ne.
Qed.

Lemma getElement_hideTooltip_ this w ref :
  getElement (page (hideTooltip_ this w).2) ref =
  if decide (ref = this)
  then attr_class "heatmap-src-line-normal" <$> getElement (page w) ref
  else getElement (page w) ref.
Proof.
  rewrite hideTooltip__eq. case_decide as Href.
  - subst ref. apply getElement_onElement.
  - by apply getElement_onElement_ne.
Qed.

Lemma hoverInvariant_render w0 : hoverInvariant w0 (render w0).2.
Proof.
  rewrite render_world. unfold hoverInvariant. simpl.
  split_and!; [done|done|by left|by left].
Qed.

Lemma hoverInvariant_setEvent w0 w ev :
  hoverInvariant w0 w → hoverInvariant w0 (setEvent ev w).2.
Proof. done. Qed.

Lemma hoverInvariant_mouseover w0 w fileIndex stats i lineNumber codeLine :
  heatmaps (data_ (self w0)) !! fileIndex = Some stats →
  srcCode stats !! i = Some (Line lineNumber codeLine) →
  hoverInvariant w0 w →
  hoverInvariant w0 (on_mouseover (rowListener w0 fileIndex stats i) w).2.
Proof.
  intros Hfile Hi (Hself & Hdead & Hlive & Hclass).
  unfold rowListener. simpl. rewrite (mouseover_handler_eq _ _ _ _ _ _ Hi).
  destruct (ToBoolean (jsget (executionCount stats) lineNumber)) eqn:Hb;
    [|done].
  set (this := (fileIndex,
                length (rowElements (self w0) stats
                          (take i (srcCode stats))))).
  assert (liveRow w0 this) as Hthis.
  { by exists fileIndex, stats, i, lineNumber, codeLine. }
  erewrite bind_run; [|reflexivity].
  unfold hoverInvariant. split_and!.
  - by rewrite showTooltip__eq.
  - intros ref Href. rewrite getElement_showTooltip_.
    case_decide; [by subst ref|by apply Hdead].
  - intros ref Href. rewrite getElement_showTooltip_.
    case_decide as Heq; [|by apply Hlive]. subst ref. right.
    destruct (Hlive this Hthis) as [->| ->]; [done|].
    by destruct (getElement (renderedPage (self w0)) this).
  - right. by rewrite showTooltip__eq.
Qed.

Lemma hoverInvariant_mouseout w0 w fileIndex stats i lineNumber codeLine :
  heatmaps (data_ (self w0)) !! fileIndex = Some stats →
  srcCode stats !! i = Some (Line lineNumber codeLine) →
  hoverInvariant w0 w →
  hoverInvariant w0 (on_mouseout (rowListener w0 fileIndex stats i) w).2.
Proof.
  intros Hfile Hi (Hself & Hdead & Hlive & Hclass).
  set (this := (fileIndex,
                length (rowElements (self w0) stats
                          (take i (srcCode stats))))).
  change (on_mouseout (rowListener w0 fileIndex stats i))
    with (hideTooltip_ this).
  pose proof (renderedPage_row (self w0) _ _ _ _ _ Hfile Hi) as Hrow.
  fold this in Hrow.
  unfold hoverInvariant. split_and!.
  - by rewrite hideTooltip__eq.
  - intros ref Href. rewrite getElement_hideTooltip_.
    case_decide as Heq; [|by apply Hdead]. subst ref.
    by rewrite (Hdead this Href), Hrow.
  - intros ref Href. rewrite getElement_hideTooltip_.
    case_decide as Heq; [|by apply Hlive]. subst ref. left.
    destruct (Hlive this Href) as [->| ->]; by rewrite Hrow.
  - left. by rewrite hideTooltip__eq.
Qed.

Lemma hoverInvariant_dispatch w0 w e :
  listener e ∈ (render w0).1 →
  hoverInvariant w0 w → hoverInvariant w0 (dispatch e w).2.
Proof.
  intros (fileIndex & stats & i & lineNumber & codeLine & Hfile & Hi & Hl)
    %render_listeners_inv Hinv.
  unfold dispatch. erewrite bind_run; [|reflexivity]. rewrite Hl.
  apply (hoverInvariant_setEvent _ _ (event e)) in Hinv.
  destruct (eventType e).
  - by eapply hoverInvariant_mouseover.
  - by eapply hoverInvariant_mouseout.
Qed.

(** X6. Starting from the page [render] built, every sequence of
    hover-enter and hover-exit events on the listeners [render] bound, in
    any order and at any pointer coordinates, keeps the object unchanged,
    leaves every element that is not a live row exactly as rendered (skip
    markers and the rows of lines without a truthy count never change, so
    such rows are never highlighted), changes of a live row nothing but
    its class, which is the normal or the highlighted one, and keeps the
    tooltip class one of invisible and visible. *)
Theorem hover_keeps_invariant w0 events :
  Forall (λ e, listener e ∈ (render w0).1) events →
  hoverInvariant w0 (dispatchAll events (render w0).2).2.
Proof.
  intros Hevents. unfold dispatchAll.
  generalize (hoverInvariant_render w0). generalize (render w0).2.
  induction Hevents as [|e events He _ IH]; intros w Hinv; [done|].
  simpl. destruct (dispatch e w) as [[] w'] eqn:Hw'.
  erewrite bind_run; [|exact Hw'].
  apply IH. replace w' with (dispatch e w).2 by by rewrite Hw'.
  by apply hoverInvariant_dispatch.
Qed.

(** *** Hover-enter then hover-exit *)

(** X7. Hover round trip. On a row that has the normal class (or on a
    reference to no element at all), hover-enter followed by hover-exit
    restores every element of every code body and the object exactly,
    whether or not the tooltip was shown; the tooltip ends invisible but
    keeps the content and the position hover-enter gave it (hover-exit
    clears neither). *)
Theorem hover_roundtrip rendered j this w :
  (∀ e, getElement (page w) this = Some e →
        className e = "heatmap-src-line-normal") →
  let w' := (mouseover_handler rendered j this w).2 in
  let w'' := (mouseout_handler this w').2 in
  self w'' = self w ∧
  fileContainers (page w'') = fileContainers (page w) ∧
  tooltip (page w'') =
    attr_class "content-tooltip content-tooltip-invisible" (tooltip (page w')).
Proof.
  intros Hnormal w' w''. subst w' w''. unfold mouseout_handler.
  rewrite hideTooltip__eq. simpl.
  assert (∀ f : Element → Element,
            (∀ e, className e = "heatmap-src-line-normal" → f e = e) →
            alter (alter f this.2) this.1 (fileContainers (page w)) =
            fileContainers (page w)) as Hid.
  { intros f Hf. unfold getElement in Hnormal.
    transitivity (alter id this.1 (fileContainers (page w)));
      [|by apply list_alter_id].
    apply list_alter_ext; [|done]. intros c Hc. rewrite Hc in Hnormal.
    transitivity (alter id this.2 c); [|by apply list_alter_id].
    apply list_alter_ext; [|done]. intros e He. apply Hf.
    apply Hnormal. simpl. exact He. }
  unfold mouseover_handler. destruct (ToBoolean _).
  - unfold mbind, M_bind, gets. rewrite showTooltip__eq. simpl.
    split_and!; [done| |done].
    unfold onElement, setPage. simpl. rewrite list_alter_alter_eq.
    transitivity (alter (alter (attr_class "heatmap-src-line-normal" ∘
                                attr_class "heatmap-src-line-highlight")
                           this.2) this.1 (fileContainers (page w))).
    { apply list_alter_ext; [|done]. intros c _. simpl.
      by rewrite list_alter_alter_eq. }
    apply Hid. intros [cls sty inner] Hcls. simpl in Hcls. by subst cls.
  - unfold mret, M_ret. simpl. split_and!; [done| |done].
    apply Hid. intros [cls sty inner] Hcls. simpl in Hcls. by subst cls.
Qed.

(** *** [renderCodeHeatmap]: colours are calibrated per report *)

Set Warnings "-inexact-float".
(** X8. After [renderCodeHeatmap(data, parent)], whatever the parent held:
    the object is the one the constructor builds from [data]; the tooltip
    is invisible, empty and unpositioned; and the row of every ['line']
    entry of every file has the normal class and, as background, the
    empty string when the line's time is absent or falsy, and otherwise
    the colour that the logarithmic scale with domain
    [[0.000001, data.runTime]] and range [['#ebfaeb', '#47d147']] gives to
    the line's time. The upper bound of the domain is the run time of
    this very report. *)
Theorem renderCodeHeatmap_colours data parent ev fileIndex stats i
    lineNumber codeLine :
  heatmaps data !! fileIndex = Some stats →
  srcCode stats !! i = Some (Line lineNumber codeLine) →
  let w := (renderCodeHeatmap data parent ev).2 in
  let this := new_CodeHeatmap data in
  let time := jsget (heatmap stats) lineNumber in
  let backgroundColor :=
    if ToBoolean time
    then d3_scaleLog (0.000001%float, runTime data) ("#ebfaeb", "#47d147") time
    else "" in
  let row :=
    {| className := "heatmap-src-line-normal";
       style := [("background-color", backgroundColor)];
       innerHTML :=
         "<div class='heatmap-src-line-number'>" +:+
           Int_toString lineNumber +:+ "</div>" +:+
         "<div class='heatmap-src-line-code'>" +:+
           hljs_highlight "python" codeLine +:+ "</div>" |} in
  self w = this ∧
  tooltip (page w) =
    {| className := "content-tooltip content-tooltip-invisible";
       style := []; innerHTML := "" |} ∧
  getElement (page w)
    (fileIndex, length (rowElements this stats (take i (srcCode stats)))) =
    Some row ∧
  outerHTML row = rowMarkup backgroundColor lineNumber codeLine.
Proof.
  intros Hfile Hi w this time backgroundColor row.
  subst w. unfold renderCodeHeatmap. rewrite render_world.
  split_and!; [done|done| |].
  - exact (renderedPage_row this fileIndex stats i lineNumber codeLine
             Hfile Hi).
  - unfold outerHTML, rowMarkup, row. simpl.
    rewrite <- !string_app_assoc. reflexivity.
Qed.
Set Warnings "inexact-float".

(** *** The layout *)

Lemma descendants_eq tag attrs m children :
  descendants (mkNode tag attrs m children) =
  mkNode tag attrs m children :: (children ≫= descendants).
Proof. reflexivity. Qed.

Lemma enter_nil {A} (data : list A) : enter [] data = data.
Proof. done. Qed.

(** Both data joins of [render] start from an empty selection, so they
    create one element per file. *)
Lemma moduleList_eq this :
  moduleList this =
  mkNode "div" [("class", "heatmap-module-list")] ""
    (mkNode "div" [("class", "heatmap-module-header")] "Inspected modules" []
     :: (moduleLink <$> heatmaps (data_ this))).
Proof. reflexivity. Qed.

Lemma imap_lookup_fmap {A B C} (f : A → B) (h : A → option B → C)
    (l : list A) :
  imap (λ i d, h d ((f <$> l) !! i)) l = (λ d, h d (Some (f d))) <$> l.
Proof.
  apply list_eq. intros i.
  rewrite list_lookup_imap, !list_lookup_fmap.
  by destruct (l !! i).
Qed.

Lemma codeContainer_eq this (f : Stats → Rendered.t) :
  codeContainer this (f <$> heatmaps (data_ this)) =
  mkNode "div" [("class", "heatmap-code-container")] ""
    ((λ d, fileNode d (Rendered.srcCode (f d))) <$> heatmaps (data_ this)).
Proof.
  unfold codeContainer. simpl. rewrite enter_nil.
  unfold d3_appendAll. simpl. f_equal.
  exact (imap_lookup_fmap f
           (λ d r, fileNode d (default "" (Rendered.srcCode <$> r)))
           (heatmaps (data_ this))).
Qed.

Lemma renderLayout_eq parent w :
  renderLayout parent w =
  (mkNode (nodeName parent) (attributes parent) (markup parent)
     (childNodes parent ++
      [pageContainer (self w)
         ((λ stats, (renderCode_ stats w).1) <$> heatmaps (data_ (self w)));
       renderHelp_ (self w)]),
   w).
Proof.
  unfold renderLayout. erewrite bind_run; [|reflexivity].
  erewrite bind_run; [|apply render_sources_eq].
  unfold mret, M_ret, d3_append. simpl. by rewrite <- app_assoc.
Qed.

Lemma elementsById_moduleLinks id (l : list Stats) :
  elementsById id ((moduleLink <$> l) ≫= descendants) = [].
Proof.
  unfold elementsById. induction l as [|d l IH]; [done|].
  rewrite fmap_cons, bind_cons, filter_app, IH. done.
Qed.

Lemma elementsById_fileNode id d srcCode :
  elementsById id (descendants (fileNode d srcCode)) =
  if decide (name d = id) then [fileHeader d] else [].
Proof.
  unfold elementsById, fileNode, fileHeader, createElement, d3_attr,
    d3_append, d3_html. simpl.
  rewrite filter_cons_False by done.
  rewrite filter_cons.
  destruct (decide (name d = id)) as [->|Hne].
  - rewrite decide_True by done. done.
  - rewrite decide_False by (intros [= ?]; done). done.
Qed.

Lemma elementsById_fileNodes_None id (g : Stats → string) (l : list Stats) :
  id ∉ name <$> l →
  elementsById id (((λ d, fileNode d (g d)) <$> l) ≫= descendants) = [].
Proof.
  induction l as [|d l IH]; [done|].
  rewrite fmap_cons, not_elem_of_cons. intros [Hne Hnin].
  rewrite fmap_cons, bind_cons. unfold elementsById. rewrite filter_app.
  fold (elementsById id (descendants (fileNode d (g d)))).
  rewrite elementsById_fileNode, decide_False by done.
  by apply IH.
Qed.

Lemma elementsById_fileNodes (g : Stats → string) (l : list Stats) i stats :
  NoDup (name <$> l) → l !! i = Some stats →
  elementsById (name stats)
    (((λ d, fileNode d (g d)) <$> l) ≫= descendants) = [fileHeader stats].
Proof.
  revert i. induction l as [|d l IH]; intros i Hnodup Hi; [done|].
  rewrite fmap_cons in Hnodup. apply NoDup_cons in Hnodup as [Hnin Hnodup].
  rewrite fmap_cons, bind_cons. unfold elementsById. rewrite filter_app.
  fold (elementsById (name stats) (descendants (fileNode d (g d)))).
  fold (elementsById (name stats)
          (((λ d, fileNode d (g d)) <$> l) ≫= descendants)).
  rewrite elementsById_fileNode.
  destruct i as [|i]; simpl in Hi.
  - injection Hi as ->. rewrite decide_True by done.
    by rewrite elementsById_fileNodes_None.
  - assert (name stats ∈ name <$> l) as Hin.
    { apply list_elem_of_fmap. exists stats. split; [done|].
      apply list_elem_of_lookup. by exists i. }
    rewrite decide_False by (intros Heq; by rewrite <- Heq in Hin).
    by apply (IH i).
Qed.

Lemma pageContainer_descendants this (f : Stats → Rendered.t) :
  descendants (pageContainer this (f <$> heatmaps (data_ this))) =
  pageContainer this (f <$> heatmaps (data_ this)) ::
  moduleList this ::
  mkNode "div" [("class", "heatmap-module-header")] "Inspected modules" [] ::
  ((moduleLink <$> heatmaps (data_ this)) ≫= descendants) ++
  codeContainer this (f <$> heatmaps (data_ this)) ::
  (((λ d, fileNode d (Rendered.srcCode (f d))) <$> heatmaps (data_ this))
     ≫= descendants) ++
  [mkNode "div" [("class", "content-tooltip content-tooltip-invisible")]
     "" []].
Proof.
  unfold pageContainer. rewrite codeContainer_eq. reflexivity.
Qed.

(** X9. Navigation. When the file names are pairwise distinct and none
    is [heatmap-layout] (the [id] of the page container), then for every
    file of the report the layout [render] appends holds the file's link
    in the module list, whose [href] is [#] followed by the file's name,
    and exactly one element whose [id] is that name: the header of this
    very file. So each module link leads to its own file. *)
Theorem module_links_resolve parent w i stats :
  NoDup ("heatmap-layout" :: (name <$> heatmaps (data_ (self w)))) →
  heatmaps (data_ (self w)) !! i = Some stats →
  linkResolves parent w stats.
Proof.
  intros [Hlayout Hnames]%NoDup_cons Hi. unfold linkResolves.
  rewrite renderLayout_eq.
  eexists _, _. split; [reflexivity|].
  assert (name stats ∈ name <$> heatmaps (data_ (self w))) as Hin.
  { apply list_elem_of_fmap. exists stats. split; [done|].
    apply list_elem_of_lookup. by exists i. }
  rewrite pageContainer_descendants. split_and!; [|done| |done].
  - do 3 apply list_elem_of_further. apply elem_of_app. left.
    apply list_elem_of_bind. exists (moduleLink stats). split.
    + apply list_elem_of_here.
    + apply list_elem_of_fmap. exists stats. split; [done|].
      apply list_elem_of_lookup. by exists i.
  - unfold elementsById.
    rewrite filter_cons_False; last first.
    { intros [= Heq]. apply Hlayout. by rewrite Heq. }
    rewrite !filter_cons_False by done.
    rewrite filter_app.
    fold (elementsById (name stats)
            ((moduleLink <$> heatmaps (data_ (self w))) ≫= descendants)).
    rewrite elementsById_moduleLinks. simpl.
    rewrite codeContainer_eq, filter_cons_False by done.
    rewrite filter_app.
    fold (elementsById (name stats)
            (((λ d, fileNode d (Rendered.srcCode (renderCode_ d w).1)) <$>
                heatmaps (data_ (self w))) ≫= descendants)).
    rewrite (elementsById_fileNodes
               (λ d, Rendered.srcCode (renderCode_ d w).1) _ i stats)
      by done.
    by rewrite filter_cons_False by done.
Qed.

Lemma codeBodyMarkup_moduleLinks (l : list Stats) :
  omap codeBodyMarkup ((moduleLink <$> l) ≫= descendants) = [].
Proof.
  induction l as [|d l IH]; [done|].
  by rewrite fmap_cons, bind_cons, omap_app, IH.
Qed.

Lemma codeBodyMarkup_fileNodes (g : Stats → string) (l : list Stats) :
  omap codeBodyMarkup (((λ d, fileNode d (g d)) <$> l) ≫= descendants) =
  g <$> l.
Proof.
  induction l as [|d l IH]; [done|].
  by rewrite !fmap_cons, bind_cons, omap_app, IH.
Qed.

(** X10. The code bodies of the layout, in document order, hold the markup
    [renderCode_] returns for the files of the report, in the order of
    the report ([renderedSources[i]] goes into the body of file [i]); and
    this markup is the serialisation of the elements that the hover
    handlers work on. *)
Theorem code_bodies_show_own_file parent w :
  ∃ layout help,
    childNodes (renderLayout parent w).1 =
      childNodes parent ++ [layout; help] ∧
    omap codeBodyMarkup (descendants layout) =
      (λ stats, Rendered.srcCode (renderCode_ stats w).1) <$>
        heatmaps (data_ (self w)) ∧
    omap codeBodyMarkup (descendants layout) =
      (λ container, join (outerHTML <$> container)) <$>
        fileContainers (page (render w).2).
Proof.
  rewrite renderLayout_eq. eexists _, _. split; [reflexivity|].
  assert (omap codeBodyMarkup
            (descendants
               (pageContainer (self w)
                  ((λ stats, (renderCode_ stats w).1) <$>
                     heatmaps (data_ (self w))))) =
          (λ stats, Rendered.srcCode (renderCode_ stats w).1) <$>
            heatmaps (data_ (self w))) as Hbodies.
  { rewrite pageContainer_descendants.
    change (omap codeBodyMarkup (?a :: ?b :: ?c :: ?l))
      with (omap codeBodyMarkup l).
    rewrite omap_app, codeBodyMarkup_moduleLinks, app_nil_l.
    rewrite codeContainer_eq.
    change (omap codeBodyMarkup (?a :: ?l)) with (omap codeBodyMarkup l).
    rewrite omap_app.
    rewrite (codeBodyMarkup_fileNodes
               (λ d, Rendered.srcCode (renderCode_ d w).1)).
    apply app_nil_r. }
  split; [exact Hbodies|]. rewrite Hbodies, render_world. simpl.
  rewrite <- list_fmap_compose. apply list_fmap_ext.
  intros _ stats _. simpl. apply renderCode__markup.
Qed.

End Properties.

(** ** The worked report, end to end *)

Section Sample.

Local Existing Instance sample_collaborators.

(** Two rows at positions 0 and 1, the second without data and without
    colour, one marker between them, and listeners on the two rows only. *)
Example sample_rendered :
  renderCode_ sample_stats sample_world =
  ({| Rendered.srcCode :=
        "<div class='heatmap-src-line-normal' style='background-color: #47d147'><div class='heatmap-src-line-number'>1</div><div class='heatmap-src-line-code'>a=1</div></div><div class='heatmap-skip-line'>3 lines skipped</div><div class='heatmap-src-line-normal' style='background-color: '><div class='heatmap-src-line-number'>5</div><div class='heatmap-src-line-code'>b=2</div></div>";
      Rendered.timeMap := {[ 0 := Number 0.5; 1 := Undefined ]};
      Rendered.countMap := {[ 0 := Number 4; 1 := Undefined ]} |},
   sample_world).
Proof. vm_compute. reflexivity. Qed.

Example sample_targets :
  target <$> (render sample_world).1 = [(0, 0); (0, 2)].
Proof. vm_compute. reflexivity. Qed.

Example sample_hover :
  tooltip <$> hoverEach sample_data {| pageX := 7; pageY := 9 |} =
  [ {| className := "content-tooltip content-tooltip-visible";
       style := [("left", "7"); ("top", "9")];
       innerHTML :=
         "<p><b>Time spent: </b>0.5 s</p><p><b>Total running time: </b>10 s</p><p><b>Percentage: </b>5%</p><p><b>Run count: </b>4</p>" |};
    {| className := "content-tooltip content-tooltip-invisible";
       style := [];
       innerHTML := "" |} ].
Proof. vm_compute. reflexivity. Qed.

(** *** Instances of the theorems on the worked report *)

Lemma renderCode__roundtrip_sample :
  srcCode sample_stats !! 0 = Some (Line 1 "a=1") ∧
  heatmap sample_stats !! 1%Z = Some 0.5%float ∧
  executionCount sample_stats !! 1%Z = Some 4%float ∧
  jsread (Rendered.timeMap (renderCode_ sample_stats sample_world).1)
         (positionAt sample_stats 0 sample_world) = Number 0.5 ∧
  jsread (Rendered.countMap (renderCode_ sample_stats sample_world).1)
         (positionAt sample_stats 0 sample_world) = Number 4.
Proof.
  split_and!; [reflexivity|vm_compute; reflexivity|vm_compute; reflexivity|..];
    apply (renderCode__roundtrip sample_stats sample_world 0 1 "a=1" 0.5 4);
    first [reflexivity | vm_compute; reflexivity].
Defined.

Lemma renderCode__all_skipped_sample :
  srcCode skipped_stats = Skip <$> [3%Z; 2%Z] ∧
  renderCode_ skipped_stats sample_world =
  ({| Rendered.srcCode :=
        "<div class='heatmap-skip-line'>3 lines skipped</div><div class='heatmap-skip-line'>2 lines skipped</div>";
      Rendered.timeMap := ∅;
      Rendered.countMap := ∅ |}, sample_world).
Proof.
  split; [reflexivity|].
  etrans;
    [apply (renderCode__all_skipped skipped_stats sample_world [3%Z; 2%Z]);
     reflexivity|].
  vm_compute. reflexivity.
Defined.

Lemma mouseover_handler_sample :
  heatmaps (data_ (self sample_world)) !! 0 = Some sample_stats ∧
  srcCode sample_stats !! 0 = Some (Line 1 "a=1") ∧
  ToBoolean (jsget (executionCount sample_stats) 1%Z) = true ∧
  let w' :=
    (mouseover_handler (renderCode_ sample_stats sample_world).1
       (positionAt sample_stats 0 sample_world) (0, 0) sample_world).2 in
  className (tooltip (page w')) = "content-tooltip content-tooltip-visible" ∧
  innerHTML (tooltip (page w')) =
    "<p><b>Time spent: </b>" +:+
      ToString (jsget (heatmap sample_stats) 1%Z) +:+ " s</p>" +:+
    "<p><b>Total running time: </b>" +:+
      Number_toString (runTime (data_ (self sample_world))) +:+ " s</p>" +:+
    "<p><b>Percentage: </b>" +:+
      Number_toString
        (100 * (ToNumber (jsget (heatmap sample_stats) 1%Z) /
                runTime (data_ (self sample_world))))%float +:+
      "%</p>" +:+
    "<p><b>Run count: </b>" +:+
      ToString (jsget (executionCount sample_stats) 1%Z) +:+ "</p>".
Proof.
  split; [reflexivity|]. split; [reflexivity|].
  split; [vm_compute; reflexivity|].
  destruct (mouseover_handler_spec sample_world 0 sample_stats 0 1 "a=1"
              sample_world eq_refl eq_refl) as (_ & _ & Hshow).
  destruct Hshow as (_ & _ & _ & Hclass & Hhtml); [vm_compute; reflexivity|].
  split; [exact Hclass|exact Hhtml].
Defined.

(** Hover-enter on the row of a line that has a count but no recorded
    time: no time and count pair exists for the line, yet the row is
    highlighted and the tooltip is shown. *)
Lemma mouseover_without_time :
  heatmap count_only_stats !! 1%Z = None ∧
  hoverEach count_only_data {| pageX := 7; pageY := 9 |} =
  [ {| fileContainers :=
         [[ {| className := "heatmap-src-line-highlight";
               style := [("background-color", "")];
               innerHTML :=
                 "<div class='heatmap-src-line-number'>1</div><div class='heatmap-src-line-code'>a=1</div>" |} ]];
       tooltip :=
         {| className := "content-tooltip content-tooltip-visible";
            style := [("left", "7"); ("top", "9")];
            innerHTML :=
              "<p><b>Time spent: </b>undefined s</p><p><b>Total running time: </b>10 s</p><p><b>Percentage: </b>NaN%</p><p><b>Run count: </b>4</p>" |} |} ].
Proof. split; vm_compute; reflexivity. Defined.

Lemma skip_entry_marker_sample :
  srcCode sample_stats !! 1 = Some (Skip 3) ∧
  rowElements (self sample_world) sample_stats (srcCode sample_stats) !! 1 =
    Some (skipElement 3) ∧
  outerHTML (skipElement 3) =
    "<div class='heatmap-skip-line'>3 lines skipped</div>" ∧
  1 ∉ selectAll "heatmap-src-line-normal"
        (rowElements (self sample_world) sample_stats
           (srcCode sample_stats)).
Proof.
  split; [reflexivity|].
  destruct (skip_entry_marker sample_stats 1 3 sample_world eq_refl)
    as (_ & _ & Hrows & _ & _ & Hsel & _).
  split_and!; [by rewrite Hrows|vm_compute; reflexivity|exact Hsel].
Defined.

Lemma formatSrcLine__guard_sample :
  noTime (jsget (heatmap sample_stats) 5%Z) ∧
  (formatSrcLine_ 5 "b=2" (jsget (heatmap sample_stats) 5%Z) sample_world).1 =
    rowMarkup "" 5 "b=2" ∧
  ToBoolean (jsget (heatmap sample_stats) 1%Z) = true ∧
  (formatSrcLine_ 1 "a=1" (jsget (heatmap sample_stats) 1%Z) sample_world).1 =
    rowMarkup "#47d147" 1 "a=1" ∧
  PrimFloat.ltb (-1) 0 = true ∧
  (formatSrcLine_ 1 "a=1" (Number (-1)) sample_world).1 =
    rowMarkup "#47d147" 1 "a=1".
Proof.
  assert (noTime (jsget (heatmap sample_stats) 5%Z)) as Hno.
  { left. vm_compute. reflexivity. }
  assert (ToBoolean (jsget (heatmap sample_stats) 1%Z) = true) as Hyes.
  { vm_compute. reflexivity. }
  assert (PrimFloat.ltb (-1) 0 = true) as Hneg.
  { vm_compute. reflexivity. }
  split; [exact Hno|].
  destruct (formatSrcLine__guard 5 "b=2" (jsget (heatmap sample_stats) 5%Z)
              sample_world) as [Hguard _].
  split; [exact (proj1 (Hguard Hno))|].
  split; [exact Hyes|].
  destruct (formatSrcLine__guard 1 "a=1" (jsget (heatmap sample_stats) 1%Z)
              sample_world) as (_ & _ & Hscale & _).
  split; [exact (proj1 (Hscale Hyes))|].
  split; [exact Hneg|].
  destruct (formatSrcLine__guard 1 "a=1" (Number (-1)) sample_world)
    as (_ & _ & _ & Hnegative).
  exact (Hnegative (-1)%float eq_refl Hneg).
Defined.

(** *** Instances of the further properties *)

Lemma sample_rows_bound :
  Forall (λ e, listener e ∈ (render sample_world).1) sample_events.
Proof.
  pose proof (render_binds_rows sample_world 0 sample_stats 0 1 "a=1"
                eq_refl eq_refl) as Hrow0.
  pose proof (render_binds_rows sample_world 0 sample_stats 2 5 "b=2"
                eq_refl eq_refl) as Hrow2.
  constructor; [exact Hrow0|]. constructor; [exact Hrow2|].
  constructor; [exact Hrow0|constructor].
Qed.

Lemma listener_shows_own_line_sample :
  sample_row0 ∈ (render sample_world).1 ∧
  showsOwnLine sample_world sample_row0.
Proof.
  assert (sample_row0 ∈ (render sample_world).1) as Hin.
  { exact (render_binds_rows sample_world 0 sample_stats 0 1 "a=1"
             eq_refl eq_refl). }
  split; [exact Hin|]. exact (listener_shows_own_line sample_world _ Hin).
Defined.

Lemma hover_keeps_invariant_sample :
  Forall (λ e, listener e ∈ (render sample_world).1) sample_events ∧
  hoverInvariant sample_world
    (dispatchAll sample_events (render sample_world).2).2.
Proof.
  split; [exact sample_rows_bound|].
  exact (hover_keeps_invariant sample_world sample_events sample_rows_bound).
Defined.

Lemma hover_roundtrip_sample :
  let w := (render sample_world).2 in
  let rendered := (renderCode_ sample_stats sample_world).1 in
  let w'' :=
    (mouseout_handler (0, 0) (mouseover_handler rendered 0 (0, 0) w).2).2 in
  (∀ e, getElement (page w) (0, 0) = Some e →
        className e = "heatmap-src-line-normal") ∧
  self w'' = self w ∧
  fileContainers (page w'') = fileContainers (page w) ∧
  className (tooltip (page w'')) = "content-tooltip content-tooltip-invisible".
Proof.
  intros w rendered w''.
  assert (∀ e, getElement (page w) (0, 0) = Some e →
               className e = "heatmap-src-line-normal") as Hnormal.
  { intros e He. vm_compute in He. by injection He as <-. }
  split; [exact Hnormal|].
  destruct (hover_roundtrip rendered 0 (0, 0) w Hnormal)
    as (Hself & Hrows & Htooltip).
  split_and!; [exact Hself|exact Hrows|exact (f_equal className Htooltip)].
Defined.

Lemma renderCodeHeatmap_colours_sample :
  let w :=
    (renderCodeHeatmap sample_data empty_page {| pageX := 0; pageY := 0 |}).2 in
  heatmaps sample_data !! 0 = Some sample_stats ∧
  srcCode sample_stats !! 0 = Some (Line 1 "a=1") ∧
  self w = new_CodeHeatmap sample_data ∧
  getElement (page w) (0, 0) =
    Some {| className := "heatmap-src-line-normal";
            style := [("background-color", "#47d147")];
            innerHTML :=
              "<div class='heatmap-src-line-number'>1</div><div class='heatmap-src-line-code'>a=1</div>" |}.
Proof.
  intros w. split; [reflexivity|]. split; [reflexivity|].
  destruct (renderCodeHeatmap_colours sample_data empty_page
              {| pageX := 0; pageY := 0 |} 0 sample_stats 0 1 "a=1"
              eq_refl eq_refl) as (Hself & _ & Hrow & _).
  split; [exact Hself|exact Hrow].
Defined.

(** Without the condition on the names the link does not single out the
    header: for a file named [heatmap-layout] two elements carry the [id]
    its link points to, the page container first. *)
Example module_link_clash :
  nodeName <$>
    elementsById "heatmap-layout"
      (childNodes (renderLayout (createElement "body") clash_world).1
         ≫= descendants) =
  ["div"; "a"].
Proof. vm_compute. reflexivity. Qed.

Lemma module_links_resolve_sample :
  NoDup ("heatmap-layout" :: (name <$> heatmaps (data_ (self sample_world)))) ∧
  heatmaps (data_ (self sample_world)) !! 0 = Some sample_stats ∧
  linkResolves (createElement "body") sample_world sample_stats.
Proof.
  assert (NoDup ("heatmap-layout" ::
                 (name <$> heatmaps (data_ (self sample_world))))) as Hnames.
  { apply NoDup_cons. split; [|apply NoDup_singleton].
    intros Hin. apply list_elem_of_singleton in Hin. discriminate Hin. }
  split; [exact Hnames|]. split; [reflexivity|].
  exact (module_links_resolve (createElement "body") sample_world 0
           sample_stats Hnames eq_refl).
Defined.

End Sample.

(** ** A negative time *)

Section NegativeTime.

Local Existing Instance sign_collaborators.

(** A recorded time of [-1] is not strictly positive, yet the formatter
    passes it to the scale: the row of the line gets the colour the scale
    gives to a negative number, in the markup [renderCode_] returns and in
    the page [renderCodeHeatmap] builds. *)
Lemma formatSrcLine__negative_time :
  heatmap negative_stats !! 1%Z = Some (-1)%float ∧
  PrimFloat.ltb 0 (-1) = false ∧
  Rendered.srcCode (renderCode_ negative_stats negative_world).1 =
    "<div class='heatmap-src-line-normal' style='background-color: negative'><div class='heatmap-src-line-number'>1</div><div class='heatmap-src-line-code'>a=1</div></div>" ∧
  fileContainers
    (page (renderCodeHeatmap
             {| runTime := 10%float; heatmaps := [negative_stats] |}
             empty_page {| pageX := 0; pageY := 0 |}).2) =
  [[ {| className := "heatmap-src-line-normal";
        style := [("background-color", "negative")];
        innerHTML :=
          "<div class='heatmap-src-line-number'>1</div><div class='heatmap-src-line-code'>a=1</div>" |} ]].
Proof. split_and!; vm_compute; reflexivity. Defined.

End NegativeTime.
